(** * view_traces.py: listing, filtering and inspecting stored MLflow traces

    A shallow embedding of [src/view_traces.py] and the properties of its
    loader ([load_trace]), summarizer ([extract_trace_info]), listing
    ([list_traces]) and detail view ([view_trace_detail]).

    The script works on whatever [json.load] hands back, so the embedding
    keeps Python's dynamic typing: one type [value] of decoded JSON values,
    builtins that raise the exception Python raises on a value of the wrong
    type, and a small state-and-exception monad in which the state is the
    object a function mutates ([info], [traces], the standard output). *)

From Stdlib Require Import ZArith List String Ascii Bool Lia.
From Stdlib Require Import Sorting.Sorted Sorting.Permutation.
From Stdlib Require Import Floats.SpecFloat Numbers.DecimalString.
From Stdlib Require Import Structures.OrderedTypeEx.
Import ListNotations.

Set Warnings "-register-all".
Local Open Scope list_scope.
Local Open Scope string_scope.
Local Open Scope Z_scope.

(** ** Python values and builtins *)

Module Py.

(** What [json.load] / [json.loads] can return.  A [dict] keeps its keys in
    insertion order (it shows in [str] and [json.dumps]), hence the
    association list; Python keeps one binding per key, and every function
    below that builds a dict ([dict_set]) preserves that. *)
Inductive value : Type :=
| PyNone
| PyBool (b : bool)
| PyInt (n : Z)
| PyFloat (x : spec_float)
| PyStr (s : string)
| PyList (l : list value)
| PyDict (d : list (string * value)).

Definition dict : Type := list (string * value).

(** The exceptions the script can meet. *)
Inductive exn : Type :=
| JSONDecodeError
| AttributeError
| TypeError
| KeyError
| IndexError
| ValueError
| RecursionError.

Inductive outcome (A : Type) : Type :=
| Return (a : A)
| Raise (e : exn).
Arguments Return {A} a.
Arguments Raise {A} e.

(** A computation over a mutable object of type [S].  An exception leaves
    the object as it was when the exception was raised: what a Python
    [try] block has written before it fails stays written. *)
Definition M (S A : Type) : Type := S -> outcome A * S.

Definition ret {S A} (a : A) : M S A := fun s => (Return a, s).

Definition bind {S A B} (c : M S A) (k : A -> M S B) : M S B :=
  fun s =>
    match c s with
    | (Return a, s') => k a s'
    | (Raise e, s') => (Raise e, s')
    end.

Definition lift {S A} (r : outcome A) : M S A := fun s => (r, s).

Definition get_state {S} : M S S := fun s => (Return s, s).

Definition put {S} (s : S) : M S unit := fun _ => (Return tt, s).

Definition modify {S} (f : S -> S) : M S unit := fun s => (Return tt, f s).

(** [try: body  except (E1, ..): pass], [handled] telling which exceptions
    the clause names. *)
Definition try_except_pass {S} (body : M S unit) (handled : exn -> bool) : M S unit :=
  fun s =>
    match body s with
    | (Raise e, s') => if handled e then (Return tt, s') else (Raise e, s')
    | r => r
    end.

(** How an iteration of a [for] loop ends: at its last statement or at a
    [continue] ([Next]), or at a [break]. *)
Inductive flow : Type := Next | Break.

Fixpoint for_in {S A} (xs : list A) (body : A -> M S flow) : M S unit :=
  match xs with
  | [] => ret tt
  | x :: rest =>
      bind (body x) (fun c =>
        match c with
        | Break => ret tt
        | Next => for_in rest body
        end)
  end.

(** The function's result: the final object, or the exception. *)
Definition exec {S A} (c : M S A) (s : S) : outcome S :=
  match c s with
  | (Return _, s') => Return s'
  | (Raise e, _) => Raise e
  end.

(** *** Builtins *)

(** [bool(v)] *)
Definition truthy (v : value) : bool :=
  match v with
  | PyNone => false
  | PyBool b => b
  | PyInt n => negb (n =? 0)
  | PyFloat (S754_zero _) => false
  | PyFloat _ => true
  | PyStr s => negb (s =? "")%string
  | PyList l => match l with [] => false | _ => true end
  | PyDict d => match d with [] => false | _ => true end
  end.

Fixpoint dict_get (k : string) (d : dict) : option value :=
  match d with
  | [] => None
  | (k', v) :: rest => if (k' =? k)%string then Some v else dict_get k rest
  end.

(** [d[k] = v] *)
Fixpoint dict_set (k : string) (v : value) (d : dict) : dict :=
  match d with
  | [] => [(k, v)]
  | (k', v') :: rest =>
      if (k' =? k)%string then (k, v) :: rest else (k', v') :: dict_set k v rest
  end.

(** [d.get(k)] on a dict *)
Definition field (d : dict) (k : string) : value :=
  match dict_get k d with
  | Some v => v
  | None => PyNone
  end.

(** [v.get(k, default)]: only a dict has the method. *)
Definition get (v : value) (k : string) (default : value) : outcome value :=
  match v with
  | PyDict d =>
      Return (match dict_get k d with Some x => x | None => default end)
  | _ => Raise AttributeError
  end.

(** [len(v)] *)
Definition len (v : value) : outcome Z :=
  match v with
  | PyList l => Return (Z.of_nat (List.length l))
  | PyStr s => Return (Z.of_nat (String.length s))
  | PyDict d => Return (Z.of_nat (List.length d))
  | _ => Raise TypeError
  end.

(** [k in v] for a string [k] *)
Definition contains (k : string) (v : value) : outcome bool :=
  match v with
  | PyDict d => Return (match dict_get k d with Some _ => true | None => false end)
  | PyList l =>
      Return (existsb (fun x => match x with PyStr s => (s =? k)%string | _ => false end) l)
  | PyStr s => Return (match String.index 0 k s with Some _ => true | None => false end)
  | _ => Raise TypeError
  end.

(** [v[i]] for the two subscripts of the script, [0] and a string key. *)
Definition subscript (v i : value) : outcome value :=
  match v, i with
  | PyDict d, PyStr k =>
      match dict_get k d with Some x => Return x | None => Raise KeyError end
  | PyDict _, (PyList _ | PyDict _) => Raise TypeError
  | PyDict _, _ => Raise KeyError
  | PyList l, PyInt n =>
      let pos := if n <? 0 then Z.of_nat (List.length l) + n else n in
      if pos <? 0 then Raise IndexError
      else match nth_error l (Z.to_nat pos) with
           | Some x => Return x
           | None => Raise IndexError
           end
  | PyStr s, PyInt n =>
      let pos := if n <? 0 then Z.of_nat (String.length s) + n else n in
      if pos <? 0 then Raise IndexError
      else match String.get (Z.to_nat pos) s with
           | Some c => Return (PyStr (String c EmptyString))
           | None => Raise IndexError
           end
  | _, _ => Raise TypeError
  end.

(** [iter(v)]: the items a [for] loop over [v] visits. *)
Definition iterate (v : value) : outcome (list value) :=
  match v with
  | PyList l => Return l
  | PyStr s => Return (map (fun c => PyStr (String c EmptyString)) (list_ascii_of_string s))
  | PyDict d => Return (map (fun kv => PyStr (fst kv)) d)
  | _ => Raise TypeError
  end.

Definition is_dict (v : value) : bool :=
  match v with PyDict _ => true | _ => false end.

Definition is_list (v : value) : bool :=
  match v with PyList _ => true | _ => false end.

(** [str(n)] for an int *)
Definition int_str (n : Z) : string := NilZero.string_of_int (Z.to_int n).

(** Whether a text is ASCII.  A [string] is a sequence of bytes and a
    Python [str] a sequence of characters; on ASCII text the two are the
    same, and a length, a slice or a padding counts the same things. *)
Fixpoint ascii_only (s : string) : bool :=
  match s with
  | EmptyString => true
  | String (Ascii _ _ _ _ _ _ _ high) rest => negb high && ascii_only rest
  end.

(** [s[:n]], on ASCII text.  The script slices the output of [json.dumps],
    which is ASCII ([ensure_ascii] is on by default), and trace
    identifiers. *)
Definition slice_to (n : nat) (s : string) : string := String.substring 0 n s.

End Py.
Import Py.

Declare Scope py_scope.
Delimit Scope py_scope with py.
Notation "x <- c ;; k" := (bind c (fun x => k))
  (at level 61, c at next level, right associativity) : py_scope.
Notation "c ;; k" := (bind c (fun _ => k))
  (at level 61, right associativity) : py_scope.
Local Open Scope py_scope.

(** ** Paths *)

(** A [pathlib.Path] as the script observes it: its [name], [str(p)],
    [p.is_dir()], and the text of [p / "artifacts" / "traces.json"] when
    that file exists.  A file that exists is taken to be one that [open]
    opens and reads as text; the errors of the file system are not part
    of the model.  A directory is the list of the paths that [iterdir()]
    yields, in the order it yields them. *)
Record Path : Type := mkPath {
  name : string;
  fspath : string;
  is_dir : bool;
  traces_json : option string
}.

(** ** Stand-ins for Python's own functions

    The examples at the end of the file run the script on concrete traces,
    and for that they need [json.loads], [json.dumps] and [repr] on the
    texts and values they use.  [Fixture.json_loads] decodes the JSON texts
    listed in [Fixture.decoded] and rejects every other text;
    [Fixture.json_dumps] and the two [repr]s are right on values without
    floats and on strings of plain letters and digits. *)

Module Fixture.

Definition dq : string := String "034"%char EmptyString.

Definition quoted (s : string) : string := dq ++ s ++ dq.

Fixpoint spaces (n : nat) : string :=
  match n with
  | O => EmptyString
  | S m => String " "%char (spaces m)
  end.

Fixpoint letters (n : nat) : string :=
  match n with
  | O => EmptyString
  | S m => String "x"%char (letters m)
  end.

(** [{"kwargs": {"index": 5, "data_source": "a", "extra_info": {"index": 9}}}] *)
Definition inputs_text : string :=
  "{" ++ quoted "kwargs" ++ ": {" ++ quoted "index" ++ ": 5, "
      ++ quoted "data_source" ++ ": " ++ quoted "a" ++ ", "
      ++ quoted "extra_info" ++ ": {" ++ quoted "index" ++ ": 9}}}".

Definition inputs_value : value :=
  PyDict [("kwargs",
           PyDict [("index", PyInt 5); ("data_source", PyStr "a");
                   ("extra_info", PyDict [("index", PyInt 9)])])].

(** [{"token_ids": [1, 2, 3]}] *)
Definition outputs_text : string := "{" ++ quoted "token_ids" ++ ": [1, 2, 3]}".

Definition outputs_value : value :=
  PyDict [("token_ids", PyList [PyInt 1; PyInt 2; PyInt 3])].

(** [{"token_ids": "abc"}] *)
Definition outputs_str_text : string :=
  "{" ++ quoted "token_ids" ++ ": " ++ quoted "abc" ++ "}".

Definition outputs_str_value : value := PyDict [("token_ids", PyStr "abc")].

(** A JSON string of 10000 letters. *)
Definition long_text : string := quoted (letters (100 * 100)).

Definition long_value : value := PyStr (letters (100 * 100)).

(** [{"trace_id": "<id>", "status": {"code": "OK"}, "spans": []}] *)
Definition record_text (id : string) : string :=
  "{" ++ quoted "trace_id" ++ ": " ++ quoted id ++ ", "
      ++ quoted "status" ++ ": {" ++ quoted "code" ++ ": " ++ quoted "OK" ++ "}, "
      ++ quoted "spans" ++ ": []}".

Definition record_value (id : string) : value :=
  PyDict [("trace_id", PyStr id); ("status", PyDict [("code", PyStr "OK")]);
          ("spans", PyList [])].

(** [{"trace_id": "two", "spans": [{}, {}]}] *)
Definition two_spans_text : string :=
  "{" ++ quoted "trace_id" ++ ": " ++ quoted "two" ++ ", "
      ++ quoted "spans" ++ ": [{}, {}]}".

Definition two_spans_value : value :=
  PyDict [("trace_id", PyStr "two"); ("spans", PyList [PyDict []; PyDict []])].

Definition decoded : list (string * value) :=
  [(inputs_text, inputs_value);
   (outputs_text, outputs_value);
   (outputs_str_text, outputs_str_value);
   (long_text, long_value);
   (record_text "a", record_value "a");
   (record_text "b", record_value "b");
   (record_text "c", record_value "c");
   (record_text "d", record_value "d");
   (record_text "e", record_value "e");
   (two_spans_text, two_spans_value)].

Definition json_loads (text : string) : outcome value :=
  match dict_get text decoded with
  | Some v => Return v
  | None => Raise JSONDecodeError
  end.

Definition float_repr (x : spec_float) : string := "nan".

Definition str_repr (s : string) : string := "'" ++ s ++ "'".

Definition nl_pad (indent depth : nat) : string :=
  String "010"%char (spaces (indent * depth)).

(** [json.dumps(v, indent=n)], [depth] counting the enclosing containers. *)
Fixpoint dumps_at (indent : nat) (depth : nat) (v : value) : string :=
  let pad := nl_pad indent (S depth) in
  match v with
  | PyNone => "null"
  | PyBool true => "true"
  | PyBool false => "false"
  | PyInt n => int_str n
  | PyFloat _ => "NaN"
  | PyStr s => quoted s
  | PyList [] => "[]"
  | PyList l =>
      "[" ++ pad ++ String.concat ("," ++ pad) (map (dumps_at indent (S depth)) l)
          ++ nl_pad indent depth ++ "]"
  | PyDict [] => "{}"
  | PyDict d =>
      "{" ++ pad
          ++ String.concat ("," ++ pad)
               (map (fun kv => let '(k, x) := kv in
                               quoted k ++ ": " ++ dumps_at indent (S depth) x) d)
          ++ nl_pad indent depth ++ "}"
  end.

Definition json_dumps (v : value) (indent : Z) : string :=
  dumps_at (Z.to_nat indent) 0 v.

(** [{"spans": []}], a record without an identifier. *)
Definition no_id_text : string := "{" ++ quoted "spans" ++ ": []}".

Definition no_id_value : value := PyDict [("spans", PyList [])].

(** A decoder that knows [no_id_text] beside the texts of [decoded]. *)
Definition json_loads_more (text : string) : outcome value :=
  match dict_get text ((no_id_text, no_id_value) :: decoded) with
  | Some v => Return v
  | None => Raise JSONDecodeError
  end.

(** [Path(s).name] for a path [s] of the form [dir/name]. *)
Fixpoint after_last_slash (s : string) : option string :=
  match s with
  | EmptyString => None
  | String c rest =>
      match after_last_slash rest with
      | Some t => Some t
      | None => if (c =? "/")%char then Some rest else None
      end
  end.

Definition path_name (s : string) : string :=
  match after_last_slash s with
  | Some t => t
  | None => s
  end.

(** The folder [traces/tr-<id>], holding a trace file of the given text or
    none, and the summary the listing gives for [record_text id]. *)
Definition folder (id : string) (text : option string) : Path :=
  mkPath ("tr-" ++ id) ("traces/tr-" ++ id) true text.

Definition summary (id : string) : dict :=
  [("trace_id", PyStr id); ("status", PyStr "OK"); ("spans", PyInt 0);
   ("path", PyStr ("traces/tr-" ++ id))].

(** A record with one span of the given attributes. *)
Definition one_span (attributes : dict) : dict :=
  [("trace_id", PyStr "t"); ("status", PyDict [("code", PyStr "OK")]);
   ("spans", PyList [PyDict [("name", PyStr "run"); ("attributes", PyDict attributes)]])].

End Fixture.

(** ** The script *)

Section ViewTraces.

(** Python's own functions, which the script calls and does not define.
    [json_loads s] is [json.loads(s)] on a [str] ([json.load] on a text
    file is [json.loads] of its text): the decoded value, or the exception
    it raises, a [JSONDecodeError] on a text that is not JSON, and also a
    [ValueError] (an integer of more digits than the interpreter converts)
    or a [RecursionError] (nesting too deep) on one that is.
    [json_dumps v n] is [json.dumps(v, indent=n)], which is ASCII text.
    [float_repr] and [str_repr] are [repr] on a float and on a str. *)
Variable json_loads : string -> outcome value.
Variable json_dumps : value -> Z -> string.
Variable float_repr : spec_float -> string.
Variable str_repr : string -> string.

(** [repr(v)] *)
Fixpoint repr (v : value) : string :=
  match v with
  | PyNone => "None"
  | PyBool true => "True"
  | PyBool false => "False"
  | PyInt n => int_str n
  | PyFloat x => float_repr x
  | PyStr s => str_repr s
  | PyList l => "[" ++ String.concat ", " (map repr l) ++ "]"
  | PyDict d =>
      "{" ++ String.concat ", "
               (map (fun kv => let '(k, x) := kv in str_repr k ++ ": " ++ repr x) d)
          ++ "}"
  end.

(** [str(v)], which is also how an f-string renders [{v}] *)
Definition str (v : value) : string :=
  match v with
  | PyStr s => s
  | _ => repr v
  end.

(** [json.loads(v)]: a [TypeError] unless [v] is a [str]. *)
Definition loads (v : value) : outcome value :=
  match v with
  | PyStr s => json_loads s
  | _ => Raise TypeError
  end.

(** Lines 14-20. *)
Definition load_trace (trace_path : Path) : outcome value :=
  match traces_json trace_path with
  | Some text => loads (PyStr text)
  | None => Return (PyDict [])
  end.

(** [except (json.JSONDecodeError, AttributeError)] *)
Definition decode_errors (e : exn) : bool :=
  match e with
  | JSONDecodeError | AttributeError => true
  | _ => false
  end.

(** Lines 42-58: one iteration of the loop over the two attribute keys,
    [info] being the object it writes to. *)
Definition extract_tag (attributes : value) (key : string) : M dict flow :=
  present <- lift (contains key attributes) ;;
  (if (present : bool) then
     try_except_pass
       (raw <- lift (subscript attributes (PyStr key)) ;;
        data <- lift (loads raw) ;;
        if (key =? "mlflow.spanInputs")%string then
          kwargs <- lift (get data "kwargs" (PyDict [])) ;;
          index <- lift (get kwargs "index" PyNone) ;;
          modify (dict_set "index" index) ;;
          data_source <- lift (get kwargs "data_source" PyNone) ;;
          modify (dict_set "data_source" data_source) ;;
          extra <- lift (get kwargs "extra_info" (PyDict [])) ;;
          if is_dict extra then
            sample_index <- lift (get extra "index" PyNone) ;;
            modify (dict_set "sample_index" sample_index)
          else ret tt
        else if (key =? "mlflow.spanOutputs")%string then
          token_ids <- lift (get data "token_ids" (PyList [])) ;;
          output_tokens <-
            (if is_list token_ids
             then n <- lift (len token_ids) ;; ret (PyInt n)
             else ret PyNone) ;;
          modify (dict_set "output_tokens" output_tokens)
        else ret tt)
       decode_errors
   else ret tt) ;;
  ret Next.

(** Lines 23-60. *)
Definition extract_trace_info (trace_data : value) : outcome dict :=
  if negb (truthy trace_data) then Return []
  else
    exec
      (trace_id <- lift (get trace_data "trace_id" PyNone) ;;
       status <- lift (get trace_data "status" (PyDict [])) ;;
       code <- lift (get status "code" PyNone) ;;
       spans <- lift (get trace_data "spans" (PyList [])) ;;
       n <- lift (len spans) ;;
       put [("trace_id", trace_id); ("status", code); ("spans", PyInt n)] ;;
       spans <- lift (get trace_data "spans" (PyList [])) ;;
       if truthy spans then
         first_span <- lift (subscript spans (PyInt 0)) ;;
         attributes <- lift (get first_span "attributes" (PyDict [])) ;;
         for_in ["mlflow.spanInputs"; "mlflow.spanOutputs"] (extract_tag attributes)
       else ret tt)
      [].

(** [sorted(...)] on the children of one directory: two of them compare
    as their names do, character by character.  The sort is stable. *)
Fixpoint insert_path (p : Path) (l : list Path) : list Path :=
  match l with
  | [] => [p]
  | q :: rest =>
      if String.leb (name p) (name q) then p :: q :: rest
      else q :: insert_path p rest
  end.

Fixpoint sorted (l : list Path) : list Path :=
  match l with
  | [] => []
  | p :: rest => insert_path p (sorted rest)
  end.

(** Line 67; [trace_dir] is what [trace_dir.iterdir()] yields. *)
Definition trace_folders (trace_dir : list Path) : list Path :=
  sorted (filter (fun d => is_dir d && String.prefix "tr-" (name d)) trace_dir).

(** [limit and len(traces) >= limit] *)
Definition limit_reached (limit : option Z) (traces : list dict) : bool :=
  match limit with
  | Some n => negb (n =? 0) && (n <=? Z.of_nat (List.length traces))
  | None => false
  end.

(** [all(str(info.get(k)) == v for k, v in filters.items())] *)
Definition all_match (filters : list (string * string)) (info : dict) : bool :=
  forallb (fun kv => let '(k, v) := kv in (str (field info k) =? v)%string) filters.

(** [if filters: ... if not match: continue]: whether the trace is kept. *)
Definition passes (filters : option (list (string * string))) (info : dict) : bool :=
  match filters with
  | Some (f :: fs) => all_match (f :: fs) info
  | _ => true
  end.

(** Lines 70-88: one iteration of the loop over the trace folders,
    [traces] being the list it appends to. *)
Definition visit (filters : option (list (string * string))) (limit : option Z)
    (trace_path : Path) : M (list dict) flow :=
  traces <- get_state ;;
  if limit_reached limit traces then ret Break
  else
    trace_data <- lift (load_trace trace_path) ;;
    info <- lift (extract_trace_info trace_data) ;;
    if negb (truthy (PyDict info)) then ret Next
    else if negb (passes filters info) then ret Next
    else
      modify (fun traces =>
                (traces ++ [dict_set "path" (PyStr (fspath trace_path)) info])%list) ;;
      ret Next.

(** Lines 63-90. *)
Definition list_traces (trace_dir : list Path)
    (filters : option (list (string * string))) (limit : option Z)
    : outcome (list dict) :=
  exec (for_in (trace_folders trace_dir) (visit filters limit)) [].

(** [print(line)], the state being the lines printed so far. *)
Definition print (line : string) : M (list string) unit :=
  modify (fun out => (out ++ [line])%list).

Definition nl : string := String "010"%char EmptyString.

(** [enumerate(items, start)] *)
Fixpoint enumerate (items : list value) (start : Z) : list (Z * value) :=
  match items with
  | [] => []
  | x :: rest => (start, x) :: enumerate rest (start + 1)
  end.

(** The bare [except:] of the detail view. *)
Definition any_error (e : exn) : bool := true.

(** Lines 106-123: one iteration of the loop over the spans. *)
Definition show_span (numbered : Z * value) : M (list string) flow :=
  let '(i, span) := numbered in
  span_name <- lift (get span "name" PyNone) ;;
  print (nl ++ "  [" ++ int_str i ++ "] " ++ str span_name) ;;
  attributes <- lift (get span "attributes" (PyDict [])) ;;
  has_inputs <- lift (contains "mlflow.spanInputs" attributes) ;;
  (if (has_inputs : bool) then
     try_except_pass
       (raw <- lift (subscript attributes (PyStr "mlflow.spanInputs")) ;;
        inputs <- lift (loads raw) ;;
        print ("      Inputs: " ++ slice_to 500 (json_dumps inputs 8) ++ "..."))
       any_error
   else ret tt) ;;
  has_outputs <- lift (contains "mlflow.spanOutputs" attributes) ;;
  (if (has_outputs : bool) then
     try_except_pass
       (raw <- lift (subscript attributes (PyStr "mlflow.spanOutputs")) ;;
        outputs <- lift (loads raw) ;;
        print ("      Outputs: " ++ slice_to 500 (json_dumps outputs 8) ++ "..."))
       any_error
   else ret tt) ;;
  ret Next.

(** Lines 93-123: what the detail view prints, and how it ends. *)
Definition view_trace_detail (trace_path : Path) : M (list string) unit :=
  trace_data <- lift (load_trace trace_path) ;;
  if negb (truthy trace_data) then print "No trace data found"
  else
    trace_id <- lift (get trace_data "trace_id" PyNone) ;;
    print ("Trace ID: " ++ str trace_id) ;;
    status <- lift (get trace_data "status" (PyDict [])) ;;
    code <- lift (get status "code" PyNone) ;;
    print ("Status: " ++ str code) ;;
    spans <- lift (get trace_data "spans" (PyList [])) ;;
    n <- lift (len spans) ;;
    print (nl ++ "Spans (" ++ int_str n ++ "):") ;;
    spans <- lift (get trace_data "spans" (PyList [])) ;;
    items <- lift (iterate spans) ;;
    for_in (enumerate items 1) show_span.

(** ** Notions the statements use *)

(** A field of a summary is absent when reading it gives None.  The
    readers of a summary, the filter (line 82) and the table (lines
    172-175), read a field with [get], which gives None for a key that is
    not in the dict and for a key that holds None alike; so this is less
    than the key not being in the dict, which is [dict_get k d = None]. *)
Definition absent (d : dict) (k : string) : Prop := field d k = PyNone.

(** The attribute [key] of a span is missing, or it is a string that
    [json.loads] decodes or rejects with an exception the summarizer
    catches (line 57): for [json.loads] that is a [JSONDecodeError], the
    exception it raises on a text that is not JSON. *)
Definition decodes_or_rejected (attributes : dict) (key : string) : bool :=
  match dict_get key attributes with
  | None => true
  | Some (PyStr text) =>
      match json_loads text with
      | Return _ => true
      | Raise e => decode_errors e
      end
  | Some _ => false
  end.

(** Ascending order of names, the order of [sorted]. *)
Definition name_le (a b : Path) : Prop := String.leb (name a) (name b) = true.

(** The fields the summarizer reads from the first span. *)
Definition span_fields : list string :=
  ["index"; "data_source"; "sample_index"; "output_tokens"].

(** A computation on [info] that writes to the fields [keys] only,
    however it ends. *)
Definition writes_only {A} (keys : list string) (c : M dict A) : Prop :=
  forall info r info',
    c info = (r, info') ->
    forall k, ~ In k keys -> dict_get k info' = dict_get k info.

(** *** The command line *)

(** Two more of Python's own doings, which [main] meets: [path_name s] is
    [Path(s).name], the last component of the path [s];
    [dict_slice_error] is the exception that [d[:38]] raises on a dict [d],
    a [TypeError] before Python 3.12 and a [KeyError] since (a slice is
    hashable there). *)
Record Python : Type := mkPython {
  path_name : string -> string;
  dict_slice_error : exn
}.

(** What [parse_args] returns. *)
Record Args : Type := mkArgs {
  filter_arg : option (list string);
  limit_arg : Z;
  detail_arg : option string;
  count_arg : bool
}.

(** [Path(args.trace_dir)] as [main] observes it: [str] of it, the paths
    [iterdir()] yields ([None] when the directory does not exist), and for
    a name [d], [str(trace_dir / d)] and the path [trace_dir / d] when it
    exists.  A trace directory that exists is taken to be a directory:
    [iterdir()] on a plain file is not modelled. *)
Record TraceDir : Type := mkTraceDir {
  dir_str : string;
  entries : option (list Path);
  join : string -> string;
  lookup : string -> option Path
}.

(** ['=' in f] and [k, v = f.split('=', 1)]: the text before the first [=]
    of [f] and the text behind it, [None] when there is no [=] in [f]. *)
Fixpoint split_eq (f : string) : option (string * string) :=
  match f with
  | EmptyString => None
  | String c rest =>
      if (c =? "=")%char then Some (EmptyString, rest)
      else match split_eq rest with
           | Some (k, v) => Some (String c k, v)
           | None => None
           end
  end.

(** [filters[k] = v] *)
Fixpoint filters_set (k v : string) (filters : list (string * string))
    : list (string * string) :=
  match filters with
  | [] => [(k, v)]
  | (k', v') :: rest =>
      if (k' =? k)%string then (k, v) :: rest else (k', v') :: filters_set k v rest
  end.

(** [filters.get(k)] *)
Fixpoint filters_get (k : string) (filters : list (string * string)) : option string :=
  match filters with
  | [] => None
  | (k', v) :: rest => if (k' =? k)%string then Some v else filters_get k rest
  end.

(** Lines 158-163. *)
Definition parse_filters (filter : option (list string)) : list (string * string) :=
  match filter with
  | Some (f :: fs) =>
      fold_left (fun filters f =>
                   match split_eq f with
                   | Some (k, v) => filters_set k v filters
                   | None => filters
                   end)
                (f :: fs) []
  | _ => []
  end.

(** [c * n] for a character [c] *)
Fixpoint repeat_char (c : ascii) (n : nat) : string :=
  match n with
  | O => EmptyString
  | S m => String c (repeat_char c m)
  end.

(** [s.ljust(width)], what the format [<width] does to a string, on
    ASCII text *)
Definition ljust (width : nat) (s : string) : string :=
  s ++ repeat_char " " (width - String.length s).

(** [format(v, "<width")], as an f-string renders [{v:<width}]: a number is
    written as by [str] (a bool as the int it is) and padded; None, a list
    and a dict take no such format. *)
Definition format_left (width : nat) (v : value) : outcome string :=
  match v with
  | PyStr s => Return (ljust width s)
  | PyInt n => Return (ljust width (int_str n))
  | PyBool b => Return (ljust width (if b then "1" else "0"))
  | PyFloat x => Return (ljust width (float_repr x))
  | PyNone | PyList _ | PyDict _ => Raise TypeError
  end.

(** [v[:n]] *)
Definition slice_value (py : Python) (n : nat) (v : value) : outcome value :=
  match v with
  | PyStr s => Return (PyStr (slice_to n s))
  | PyList l => Return (PyList (firstn n l))
  | PyDict _ => Raise (dict_slice_error py)
  | _ => Raise TypeError
  end.

(** [v or default] *)
Definition or_else (v default : value) : value :=
  if truthy v then v else default.

(** Lines 171-177: one row of the table. *)
Definition show_row (py : Python) (trace : dict) : M (list string) flow :=
  trace_id <- lift (get (PyDict trace) "trace_id" (PyStr "N/A")) ;;
  trace_id <- lift (slice_value py 38 trace_id) ;;
  spans <- lift (get (PyDict trace) "spans" (PyStr "N/A")) ;;
  let tokens := or_else (field trace "output_tokens") (PyStr "N/A") in
  let source := or_else (field trace "data_source") (PyStr "N/A") in
  id_column <- lift (format_left 40 trace_id) ;;
  spans_column <- lift (format_left 8 spans) ;;
  tokens_column <- lift (format_left 15 (PyStr (str tokens))) ;;
  source_column <- lift (format_left 15 source) ;;
  print (id_column ++ " " ++ spans_column ++ " " ++ tokens_column ++ " " ++ source_column) ;;
  ret Next.

(** Lines 126-181, from the parsed arguments on. *)
Definition main (py : Python) (args : Args) (trace_dir : TraceDir)
    : M (list string) unit :=
  match entries trace_dir with
  | None => print ("Error: Trace directory not found: " ++ dir_str trace_dir)
  | Some children =>
      if count_arg args then
        let trace_folders :=
          filter (fun d => is_dir d && String.prefix "tr-" (name d)) children in
        print ("Total traces: " ++ int_str (Z.of_nat (List.length trace_folders)))
      else
        match detail_arg args with
        | Some (String c rest) =>
            match lookup trace_dir (String c rest) with
            | None => print ("Error: Trace not found: " ++ join trace_dir (String c rest))
            | Some trace_path => view_trace_detail trace_path
            end
        | _ =>
            let filters := parse_filters (filter_arg args) in
            traces <- lift (list_traces children (Some filters) (Some (limit_arg args))) ;;
            print ("Found " ++ int_str (Z.of_nat (List.length traces)) ++ " traces:" ++ nl) ;;
            print (ljust 40 "Trace ID" ++ " " ++ ljust 8 "Spans" ++ " "
                     ++ ljust 15 "Output Tokens" ++ " " ++ ljust 15 "Data Source") ;;
            print (repeat_char "-" 100) ;;
            for_in traces (show_row py) ;;
            match traces with
            | first :: _ =>
                path <- lift (subscript (PyDict first) (PyStr "path")) ;;
                match path with
                | PyStr s =>
                    print (nl ++ "To view details: python view_traces.py --detail "
                              ++ path_name py s)
                | _ => lift (Raise TypeError)
                end
            | [] => ret tt
            end
        end
  end.

(** ** Facts about the builtins *)

Lemma dict_get_set_same k v d : dict_get k (dict_set k v d) = Some v.
Proof.
  induction d as [|[k' v'] d IH]; simpl.
  - now rewrite String.eqb_refl.
  - destruct (String.eqb_spec k' k); simpl.
    + now rewrite String.eqb_refl.
    + destruct (String.eqb_spec k' k); [contradiction|exact IH].
Qed.

Lemma dict_get_set_other k k' v d : k' <> k -> dict_get k (dict_set k' v d) = dict_get k d.
Proof.
  intros Hne. induction d as [|[k0 v0] d IH]; simpl.
  - destruct (String.eqb_spec k' k); [contradiction|reflexivity].
  - destruct (String.eqb_spec k0 k'); simpl.
    + subst k0. destruct (String.eqb_spec k' k); [contradiction|reflexivity].
    + destruct (String.eqb_spec k0 k); [reflexivity|exact IH].
Qed.

Lemma leb_trans a b c : String.leb a b = true -> String.leb b c = true -> String.leb a c = true.
Proof.
  unfold String.leb. intros Hab Hbc.
  destruct (String.compare a b) eqn:Eab; try discriminate;
  destruct (String.compare b c) eqn:Ebc; try discriminate.
  - apply String.compare_eq_iff in Eab, Ebc. subst. assert (H : String.compare c c = Eq) by (apply String_as_OT.cmp_eq; reflexivity). now rewrite H.
  - apply String.compare_eq_iff in Eab. subst. now rewrite Ebc.
  - apply String.compare_eq_iff in Ebc. subst. now rewrite Eab.
  - apply String_as_OT.cmp_lt in Eab, Ebc.
    pose proof (String_as_OT.lt_trans _ _ _ Eab Ebc) as Hac.
    apply String_as_OT.cmp_lt in Hac. unfold String_as_OT.cmp in Hac. now rewrite Hac.
Qed.

Lemma slice_to_length n s : String.length (slice_to n s) = Nat.min n (String.length s).
Proof.
  unfold slice_to. revert s. induction n as [|n IH]; intros s.
  - destruct s; reflexivity.
  - destruct s as [|c s]; simpl; [reflexivity|]. now rewrite IH.
Qed.

Lemma slice_to_prefix n s : String.prefix (slice_to n s) s = true.
Proof.
  unfold slice_to. revert s. induction n as [|n IH]; intros s.
  - destruct s; reflexivity.
  - destruct s as [|c s]; simpl; [reflexivity|].
    destruct (ascii_dec c c); [apply IH|contradiction].
Qed.

Lemma insert_path_perm p l : Permutation (insert_path p l) (p :: l).
Proof.
  induction l as [|q l IH]; simpl; [reflexivity|].
  destruct (String.leb (name p) (name q)); [reflexivity|].
  rewrite IH. apply perm_swap.
Qed.

Lemma sorted_perm l : Permutation (sorted l) l.
Proof.
  induction l as [|p l IH]; simpl; [reflexivity|].
  rewrite insert_path_perm. now constructor.
Qed.

Lemma insert_path_sorted p l :
  StronglySorted name_le l -> StronglySorted name_le (insert_path p l).
Proof.
  induction 1 as [|q l Hs IH Hall]; simpl.
  - repeat constructor.
  - destruct (String.leb (name p) (name q)) eqn:E.
    + constructor; [now constructor|].
      constructor; [exact E|].
      eapply Forall_impl; [|exact Hall].
      intros r Hr. unfold name_le in *. eapply leb_trans; eassumption.
    + constructor; [exact IH|].
      rewrite (insert_path_perm p l).
      constructor; [|exact Hall].
      unfold name_le. destruct (String.leb_total (name p) (name q)) as [H|H]; [congruence|exact H].
Qed.

Lemma sorted_sorted l : StronglySorted name_le (sorted l).
Proof.
  induction l; simpl; [constructor|now apply insert_path_sorted].
Qed.

(** ** The loop of [list_traces] *)

(** What one folder adds to [traces] when the limit is not reached. *)
Lemma visit_unfold filters limit p traces :
  visit filters limit p traces =
  if limit_reached limit traces then (Return Break, traces)
  else match load_trace p with
       | Raise e => (Raise e, traces)
       | Return trace_data =>
           match extract_trace_info trace_data with
           | Raise e => (Raise e, traces)
           | Return info =>
               (Return Next,
                if truthy (PyDict info) && passes filters info
                then (traces ++ [dict_set "path" (PyStr (fspath p)) info])%list
                else traces)
           end
       end.
Proof.
  unfold visit, bind, get_state, lift, ret, modify.
  destruct (limit_reached limit traces); [reflexivity|].
  destruct (load_trace p) as [trace_data|e]; [|reflexivity].
  destruct (extract_trace_info trace_data) as [info|e]; [|reflexivity].
  destruct (truthy (PyDict info)); simpl; [|reflexivity].
  destruct (passes filters info); reflexivity.
Qed.

Lemma visit_alone filters p traces :
  visit filters None p traces =
  (fst (visit filters None p []), (traces ++ snd (visit filters None p []))%list).
Proof.
  rewrite !visit_unfold. simpl.
  destruct (load_trace p) as [trace_data|e]; simpl; [|now rewrite app_nil_r].
  destruct (extract_trace_info trace_data) as [info|e]; simpl; [|now rewrite app_nil_r].
  destruct (_ && passes filters info); simpl; [reflexivity|now rewrite app_nil_r].
Qed.

Lemma visit_adds_at_most_one filters p :
  (List.length (snd (visit filters None p [])) <= 1)%nat.
Proof.
  rewrite visit_unfold. simpl.
  destruct (load_trace p) as [trace_data|e]; simpl; [|lia].
  destruct (extract_trace_info trace_data) as [info|e]; simpl; [|lia].
  destruct (_ && passes filters info); simpl; lia.
Qed.

Lemma visit_below_limit filters limit p traces :
  limit_reached limit traces = false ->
  visit filters limit p traces = visit filters None p traces.
Proof.
  intros H. rewrite !visit_unfold, H. reflexivity.
Qed.

Lemma visit_at_limit filters limit p traces :
  limit_reached limit traces = true ->
  visit filters limit p traces = (Return Break, traces).
Proof.
  intros H. now rewrite visit_unfold, H.
Qed.

Lemma for_in_cons {S A} (x : A) (rest : list A) (body : A -> M S flow) (s : S) :
  for_in (x :: rest) body s =
  match body x s with
  | (Return Next, s') => for_in rest body s'
  | (Return Break, s') => (Return tt, s')
  | (Raise e, s') => (Raise e, s')
  end.
Proof.
  simpl. unfold bind. destruct (body x s) as [[[]|e] s']; reflexivity.
Qed.

(** Without a limit the loop returns what every folder adds on its own,
    in the order of the folders. *)
Lemma unlimited_loop filters folders traces out :
  for_in folders (visit filters None) traces = (Return tt, out) ->
  out = (traces ++ flat_map (fun p => snd (visit filters None p [])) folders)%list.
Proof.
  revert traces. induction folders as [|p rest IH]; intros traces H.
  - simpl in H. injection H as <-. simpl. now rewrite app_nil_r.
  - rewrite for_in_cons, visit_alone in H. simpl.
    destruct (fst (visit filters None p [])) as [[]|e] eqn:E; try discriminate.
    + apply IH in H. now rewrite H, app_assoc.
    + rewrite visit_unfold in E. simpl in E.
      destruct (load_trace p) as [td|]; [|discriminate].
      destruct (extract_trace_info td); discriminate.
Qed.

(** It returns when loading and summarizing every folder does. *)
Lemma unlimited_loop_returns filters folders traces :
  Forall (fun p => exists trace_data info,
            load_trace p = Return trace_data
            /\ extract_trace_info trace_data = Return info) folders ->
  for_in folders (visit filters None) traces =
  (Return tt, (traces ++ flat_map (fun p => snd (visit filters None p [])) folders)%list).
Proof.
  intros H. revert traces. induction H as [|p rest (td & info & Hl & He) _ IH]; intros traces.
  - simpl. now rewrite app_nil_r.
  - rewrite for_in_cons, visit_alone.
    assert (E : fst (visit filters None p []) = Return Next).
    { rewrite visit_unfold. simpl. now rewrite Hl, He. }
    rewrite E, IH. simpl. now rewrite app_assoc.
Qed.

Lemma loop_at_limit filters n folders traces :
  0 < n -> n <= Z.of_nat (List.length traces) ->
  for_in folders (visit filters (Some n)) traces = (Return tt, traces).
Proof.
  intros Hn Hlen. destruct folders as [|p rest]; [reflexivity|].
  rewrite for_in_cons, visit_at_limit; [reflexivity|].
  simpl. apply andb_true_intro. split.
  - apply negb_true_iff, Z.eqb_neq. lia.
  - now apply Z.leb_le.
Qed.

(** With a limit the loop returns the first [n] of them, and does not go
    past the folders [scanned] that yield them. *)
Lemma limited_loop filters n scanned unscanned traces out :
  0 < n ->
  for_in scanned (visit filters None) traces = (Return tt, out) ->
  unscanned = [] \/ n <= Z.of_nat (List.length out) ->
  for_in (scanned ++ unscanned) (visit filters (Some n)) traces =
  (Return tt, firstn (Nat.max (Z.to_nat n) (List.length traces)) out).
Proof.
  intros Hn. revert traces. induction scanned as [|p rest IH]; intros traces H Hstop.
  - simpl in H. injection H as <-. simpl app.
    rewrite firstn_all2 by lia.
    destruct Hstop as [->|Hlen]; [reflexivity|now apply loop_at_limit].
  - pose proof (unlimited_loop _ _ _ _ H) as Hout.
    simpl app. rewrite for_in_cons.
    destruct (limit_reached (Some n) traces) eqn:L.
    + rewrite visit_at_limit by exact L.
      simpl in L. apply andb_prop in L as [_ L]. apply Z.leb_le in L.
      rewrite Nat.max_r by lia. subst out.
      rewrite firstn_app, firstn_all, Nat.sub_diag. simpl. now rewrite app_nil_r.
    + rewrite visit_below_limit by exact L.
      rewrite for_in_cons in H.
      destruct (visit filters None p traces) as [[[]|e] s'] eqn:V; try discriminate.
      * rewrite (IH _ H Hstop). f_equal. f_equal.
        rewrite visit_alone in V. injection V as _ <-.
        pose proof (visit_adds_at_most_one filters p).
        simpl in L. rewrite length_app.
        destruct (n =? 0) eqn:N0; [apply Z.eqb_eq in N0; lia|]. simpl in L.
        apply Z.leb_gt in L. lia.
      * rewrite visit_unfold in V. simpl in V.
        destruct (load_trace p) as [td|]; [|discriminate].
        destruct (extract_trace_info td); discriminate.
Qed.

(** ** Listing *)

(** C5. Let the sorted trace folders split into the folders [scanned] and
    the folders [unscanned], where loading and summarizing each scanned
    folder returns, and let [all] be the summaries the scanned folders
    yield, in order.  With a positive [limit], if [all] holds at least
    [limit] summaries (or nothing is left unscanned), the listing returns
    exactly the first [limit] of [all], and never looks at the unscanned
    folders: once [limit] summaries are collected the loop ends, whatever
    folders are left.  Without a limit, and nothing left unscanned, the
    listing returns [all]. *)
Theorem list_traces_limit (trace_dir : list Path)
    (filters : option (list (string * string))) (n : Z)
    (scanned unscanned : list Path) :
  0 < n ->
  trace_folders trace_dir = (scanned ++ unscanned)%list ->
  Forall (fun p => exists trace_data info,
            load_trace p = Return trace_data
            /\ extract_trace_info trace_data = Return info) scanned ->
  let all := flat_map (fun p => snd (visit filters None p [])) scanned in
  unscanned = [] \/ n <= Z.of_nat (List.length all) ->
  list_traces trace_dir filters (Some n) = Return (firstn (Z.to_nat n) all)
  /\ (forall folders traces, n <= Z.of_nat (List.length traces) ->
        for_in folders (visit filters (Some n)) traces = (Return tt, traces))
  /\ (unscanned = [] -> list_traces trace_dir filters None = Return all).
Proof.
  intros Hn Hsplit Hret all Hstop.
  pose proof (unlimited_loop_returns filters scanned [] Hret) as Hall.
  simpl app in Hall. fold all in Hall.
  split; [|split].
  - unfold list_traces, exec. rewrite Hsplit.
    rewrite (limited_loop filters n scanned unscanned [] all Hn Hall Hstop).
    simpl. now rewrite Nat.max_0_r.
  - intros folders traces Hlen. now apply loop_at_limit.
  - intros ->. unfold list_traces, exec. rewrite Hsplit, app_nil_r, Hall. reflexivity.
Qed.

(** C10. A limit of 0 is no limit: the listing is the unlimited one, and
    when loading and summarizing every trace folder returns, it returns
    every summary the folders yield. *)
Theorem list_traces_limit_zero (trace_dir : list Path)
    (filters : option (list (string * string))) :
  list_traces trace_dir filters (Some 0) = list_traces trace_dir filters None
  /\ (Forall (fun p => exists trace_data info,
                load_trace p = Return trace_data
                /\ extract_trace_info trace_data = Return info)
             (trace_folders trace_dir) ->
      list_traces trace_dir filters (Some 0) =
      Return (flat_map (fun p => snd (visit filters None p [])) (trace_folders trace_dir))).
Proof.
  (* [limit and ...] is false for 0 as it is for None: the two loops have
     the same body. *)
  assert (H0 : list_traces trace_dir filters (Some 0) = list_traces trace_dir filters None)
    by reflexivity.
  split; [exact H0|].
  intros Hret. rewrite H0. unfold list_traces, exec.
  now rewrite (unlimited_loop_returns filters _ [] Hret).
Qed.

Lemma field_set_same k v d : field (dict_set k v d) k = v.
Proof. unfold field. now rewrite dict_get_set_same. Qed.

Lemma StronglySorted_cons_incl p kept rest :
  Forall (name_le p) rest -> incl kept rest -> Forall (name_le p) kept.
Proof.
  intros Hall Hin. apply Forall_forall. intros q Hq.
  eapply Forall_forall in Hall; [exact Hall|]. now apply Hin.
Qed.

(** The summaries the loop adds come from folders it was given, in their
    order. *)
Lemma loop_keeps_order filters limit folders :
  StronglySorted name_le folders ->
  forall traces out,
    for_in folders (visit filters limit) traces = (Return tt, out) ->
    exists kept added,
      out = (traces ++ added)%list
      /\ map (fun info => field info "path") added = map (fun p => PyStr (fspath p)) kept
      /\ StronglySorted name_le kept
      /\ incl kept folders.
Proof.
  induction 1 as [|p rest Hs IH Hall]; intros traces out H.
  - simpl in H. injection H as <-. exists [], []. rewrite app_nil_r.
    repeat split; [constructor|apply incl_refl].
  - rewrite for_in_cons, visit_unfold in H.
    destruct (limit_reached limit traces).
    { injection H as <-. exists [], []. rewrite app_nil_r.
      repeat split; [constructor|intros q []]. }
    destruct (load_trace p) as [trace_data|e]; [|discriminate].
    destruct (extract_trace_info trace_data) as [info|e]; [|discriminate].
    destruct (_ && passes filters info).
    + apply IH in H as (kept & added & -> & Hmap & Hsorted & Hincl).
      exists (p :: kept), (dict_set "path" (PyStr (fspath p)) info :: added).
      rewrite <- app_assoc. simpl. rewrite field_set_same, Hmap.
      repeat split.
      * constructor; [exact Hsorted|]. eapply StronglySorted_cons_incl; eassumption.
      * intros q [<-|Hq]; [now left|right; now apply Hincl].
    + apply IH in H as (kept & added & -> & Hmap & Hsorted & Hincl).
      exists kept, added. repeat split; try assumption.
      intros q Hq. right. now apply Hincl.
Qed.

Lemma trace_folders_In trace_dir p :
  In p (trace_folders trace_dir) <->
  In p trace_dir /\ is_dir p = true /\ String.prefix "tr-" (name p) = true.
Proof.
  unfold trace_folders. split.
  - intros H. apply (Permutation_in _ (sorted_perm _)) in H.
    apply filter_In in H as [Hin Hb]. apply andb_prop in Hb. tauto.
  - intros (Hin & Hd & Hp).
    apply (Permutation_in _ (Permutation_sym (sorted_perm _))).
    apply filter_In. split; [exact Hin|]. now rewrite Hd, Hp.
Qed.

(** Without a limit, a loop that returns has loaded and summarized every
    folder it was given. *)
Lemma unlimited_loop_all_return filters folders traces out :
  for_in folders (visit filters None) traces = (Return tt, out) ->
  Forall (fun p => exists trace_data info,
            load_trace p = Return trace_data
            /\ extract_trace_info trace_data = Return info) folders.
Proof.
  revert traces. induction folders as [|p rest IH]; intros traces H; [constructor|].
  rewrite for_in_cons, visit_unfold in H. simpl in H.
  destruct (load_trace p) as [td|] eqn:Hl; [|discriminate].
  destruct (extract_trace_info td) as [info|] eqn:He; [|discriminate].
  constructor; [now exists td, info|]. exact (IH _ H).
Qed.

(** What a folder that loads, summarizes and passes the filters adds. *)
Lemma visit_keeps filters p trace_data info :
  load_trace p = Return trace_data ->
  extract_trace_info trace_data = Return info ->
  info <> [] ->
  passes filters info = true ->
  snd (visit filters None p []) = [dict_set "path" (PyStr (fspath p)) info].
Proof.
  intros Hl He Hne Hp. rewrite visit_unfold. simpl. rewrite Hl, He, Hp.
  destruct info; [contradiction|reflexivity].
Qed.

(** C8. The folders the listing visits are exactly the entries of the
    trace directory that are directories named [tr-...], each as often as
    the directory yields it, in ascending order of name; and the summaries
    it returns belong, in order, to folders among these in ascending order
    of name.  The other entries are ignored: directories that have the
    same [tr-] folders have the same listing, whatever else they hold.
    Every [tr-] folder is visited: a listing without a limit that returns
    has loaded and summarized each of them, and returns what each yields,
    in that order, the summary of every folder that has one and passes the
    filters among them; and it does return when each of them loads and
    summarizes. *)
Theorem list_traces_folders (trace_dir : list Path)
    (filters : option (list (string * string))) (limit : option Z) :
  (forall p, In p (trace_folders trace_dir) <->
             In p trace_dir /\ is_dir p = true /\ String.prefix "tr-" (name p) = true)
  /\ Permutation (trace_folders trace_dir)
       (filter (fun d => is_dir d && String.prefix "tr-" (name d)) trace_dir)
  /\ StronglySorted name_le (trace_folders trace_dir)
  /\ (forall traces, list_traces trace_dir filters limit = Return traces ->
        exists kept,
          map (fun info => field info "path") traces = map (fun p => PyStr (fspath p)) kept
          /\ StronglySorted name_le kept
          /\ incl kept (trace_folders trace_dir))
  /\ (forall trace_dir',
        filter (fun d => is_dir d && String.prefix "tr-" (name d)) trace_dir' =
        filter (fun d => is_dir d && String.prefix "tr-" (name d)) trace_dir ->
        list_traces trace_dir' filters limit = list_traces trace_dir filters limit)
  /\ (forall traces, list_traces trace_dir filters None = Return traces ->
        Forall (fun p => exists trace_data info,
                  load_trace p = Return trace_data
                  /\ extract_trace_info trace_data = Return info)
               (trace_folders trace_dir)
        /\ traces = flat_map (fun p => snd (visit filters None p []))
                             (trace_folders trace_dir)
        /\ forall p trace_data info,
             In p (trace_folders trace_dir) ->
             load_trace p = Return trace_data ->
             extract_trace_info trace_data = Return info ->
             info <> [] ->
             passes filters info = true ->
             In (dict_set "path" (PyStr (fspath p)) info) traces)
  /\ (Forall (fun p => exists trace_data info,
                load_trace p = Return trace_data
                /\ extract_trace_info trace_data = Return info)
             (trace_folders trace_dir) ->
      list_traces trace_dir filters None =
      Return (flat_map (fun p => snd (visit filters None p [])) (trace_folders trace_dir))).
Proof.
  split; [apply trace_folders_In|].
  split; [apply sorted_perm|].
  split; [apply sorted_sorted|].
  split; [|split; [|split]].
  - intros traces H. unfold list_traces, exec in H.
    destruct (for_in (trace_folders trace_dir) (visit filters limit) [])
      as [[[]|e] out] eqn:E; [|discriminate].
    injection H as ->.
    apply loop_keeps_order in E as (kept & added & -> & Hmap & Hsorted & Hincl);
      [|apply sorted_sorted].
    exists kept. simpl. auto.
  - intros trace_dir' Hsame. unfold list_traces, trace_folders. now rewrite Hsame.
  - intros traces H. unfold list_traces, exec in H.
    destruct (for_in (trace_folders trace_dir) (visit filters None) [])
      as [[[]|e] out] eqn:E; [|discriminate].
    injection H as ->.
    pose proof (unlimited_loop_all_return _ _ _ _ E) as Hall.
    apply unlimited_loop in E. simpl in E. subst traces.
    split; [exact Hall|]. split; [reflexivity|].
    intros p td info Hin Hl He Hne Hp. apply in_flat_map. exists p.
    split; [exact Hin|]. rewrite (visit_keeps _ _ _ _ Hl He Hne Hp). now left.
  - intros Hall. unfold list_traces, exec.
    now rewrite (unlimited_loop_returns filters _ [] Hall).
Qed.

(** A folder without the artifact file leaves [traces] as it is. *)
Lemma visit_missing filters limit p traces :
  traces_json p = None ->
  visit filters limit p traces =
  (Return (if limit_reached limit traces then Break else Next), traces).
Proof.
  intros H. rewrite visit_unfold. unfold load_trace. rewrite H.
  destruct (limit_reached limit traces); reflexivity.
Qed.

Lemma loop_skips_missing filters limit p before after traces :
  traces_json p = None ->
  for_in (before ++ p :: after) (visit filters limit) traces =
  for_in (before ++ after) (visit filters limit) traces.
Proof.
  intros H. revert traces. induction before as [|q before IH]; intros traces.
  - simpl app. rewrite for_in_cons, visit_missing by exact H.
    destruct (limit_reached limit traces) eqn:L; [|reflexivity].
    destruct after as [|q after]; [reflexivity|].
    now rewrite for_in_cons, visit_at_limit.
  - simpl app. rewrite !for_in_cons.
    destruct (visit filters limit q traces) as [[[]|e] s']; auto.
Qed.

(** C4. A trace folder without the artifact file loads as the empty record
    [{}], whose summary is the empty summary [{}]; visiting it in the
    listing raises nothing and leaves the collected summaries as they are,
    and the listing is the one of the other folders.  When the file is
    there and its text is not JSON, [load_trace] raises the decoder's
    error. *)
Theorem load_trace_missing_or_malformed (p : Path) :
  (traces_json p = None ->
     load_trace p = Return (PyDict [])
     /\ extract_trace_info (PyDict []) = Return []
     /\ (forall filters limit traces,
           exists c, visit filters limit p traces = (Return c, traces))
     /\ (forall filters limit before after traces,
           for_in (before ++ p :: after) (visit filters limit) traces =
           for_in (before ++ after) (visit filters limit) traces)
     /\ (forall filters limit trace_dir,
           In p (trace_folders trace_dir) ->
           exists before after,
             trace_folders trace_dir = (before ++ p :: after)%list
             /\ list_traces trace_dir filters limit =
                exec (for_in (before ++ after) (visit filters limit)) []))
  /\ (forall text e,
        traces_json p = Some text -> json_loads text = Raise e ->
        load_trace p = Raise e).
Proof.
  split.
  - intros H. split; [|split; [|split; [|split]]].
    + unfold load_trace. now rewrite H.
    + reflexivity.
    + intros filters limit traces. eexists. now apply visit_missing.
    + intros. now apply loop_skips_missing.
    + intros filters limit trace_dir Hin.
      apply in_split in Hin as (before & after & Hsplit).
      exists before, after. split; [exact Hsplit|].
      unfold list_traces, exec. rewrite Hsplit.
      now rewrite loop_skips_missing.
  - intros text e H Hbad. unfold load_trace, loads. now rewrite H, Hbad.
Qed.

Lemma all_match_spec filters info :
  all_match filters info = true <->
  forall k v, In (k, v) filters -> str (field info k) = v.
Proof.
  unfold all_match. rewrite forallb_forall. split.
  - intros H k v Hin. apply H in Hin. now apply String.eqb_eq.
  - intros H [k v] Hin. apply String.eqb_eq. now apply H.
Qed.

(** C1, as the code has it.  With a non-empty filter mapping, a summary is
    kept exactly when it is not empty and, for every filter key, [str] of
    the field's value is the expected string (the int 2 matches the string
    2).  An absent field is compared through the [str] of None like any
    other: it matches the expected string None and no other. *)
Theorem filter_compares_str (filters : list (string * string)) (limit : option Z)
    (p : Path) (trace_data : value) (info : dict) (traces : list dict) :
  filters <> [] ->
  limit_reached limit traces = false ->
  load_trace p = Return trace_data ->
  extract_trace_info trace_data = Return info ->
  visit (Some filters) limit p traces =
    (Return Next,
     if truthy (PyDict info) && all_match filters info
     then (traces ++ [dict_set "path" (PyStr (fspath p)) info])%list
     else traces)
  /\ (all_match filters info = true <->
      forall k v, In (k, v) filters -> str (field info k) = v)
  /\ str (PyInt 2) = "2"
  /\ (forall k v, In (k, v) filters -> absent info k ->
        ((str (field info k) =? v)%string = true <-> v = "None")).
Proof.
  intros Hne Hlim Hload Hinfo.
  split; [|split; [|split]].
  - rewrite visit_unfold, Hlim, Hload, Hinfo.
    destruct filters; [contradiction|reflexivity].
  - apply all_match_spec.
  - reflexivity.
  - intros k v _ Hnone. unfold absent in Hnone. rewrite Hnone.
    change (str PyNone) with "None".
    rewrite String.eqb_eq. split; congruence.
Qed.

(** ** The summarizer *)

(** The two iterations of the loop over the attribute keys, on a span
    whose attributes are a dict. *)
Lemma extract_tag_missing attrs key info :
  dict_get key attrs = None ->
  extract_tag (PyDict attrs) key info = (Return Next, info).
Proof.
  intros H. unfold extract_tag, bind, lift, contains. now rewrite H.
Qed.

Lemma extract_tag_inputs attrs text info :
  dict_get "mlflow.spanInputs" attrs = Some (PyStr text) ->
  extract_tag (PyDict attrs) "mlflow.spanInputs" info =
  match json_loads text with
  | Return decoded =>
      (Return Next,
       match decoded with
       | PyDict data =>
           match (match dict_get "kwargs" data with Some x => x | None => PyDict [] end) with
           | PyDict kw =>
               let info1 :=
                 dict_set "data_source" (field kw "data_source")
                   (dict_set "index" (field kw "index") info) in
               match (match dict_get "extra_info" kw with
                      | Some x => x
                      | None => PyDict []
                      end) with
               | PyDict ex => dict_set "sample_index" (field ex "index") info1
               | _ => info1
               end
           | _ => info
           end
       | _ => info
       end)
  | Raise e => (if decode_errors e then Return Next else Raise e, info)
  end.
Proof.
  intros H. unfold extract_tag, bind, lift, contains, subscript, try_except_pass, loads.
  rewrite H. simpl.
  destruct (json_loads text) as [[| | | | | |data]|e]; try reflexivity.
  - simpl.
    destruct (match dict_get "kwargs" data with Some x => x | None => PyDict [] end)
      as [| | | | | |kw]; try reflexivity.
    simpl. unfold field.
    destruct (match dict_get "extra_info" kw with Some x => x | None => PyDict [] end);
      reflexivity.
  - simpl. destruct (decode_errors e); reflexivity.
Qed.

Lemma extract_tag_outputs attrs text info :
  dict_get "mlflow.spanOutputs" attrs = Some (PyStr text) ->
  extract_tag (PyDict attrs) "mlflow.spanOutputs" info =
  match json_loads text with
  | Return decoded =>
      (Return Next,
       match decoded with
       | PyDict data =>
           dict_set "output_tokens"
             (match dict_get "token_ids" data with
              | Some (PyList l) => PyInt (Z.of_nat (List.length l))
              | None => PyInt 0
              | Some _ => PyNone
              end) info
       | _ => info
       end)
  | Raise e => (if decode_errors e then Return Next else Raise e, info)
  end.
Proof.
  intros H. unfold extract_tag, bind, lift, contains, subscript, try_except_pass, loads.
  rewrite H. simpl.
  destruct (json_loads text) as [[| | | | | |data]|e]; try reflexivity.
  - simpl. destruct (dict_get "token_ids" data) as [[]|]; reflexivity.
  - simpl. destruct (decode_errors e); reflexivity.
Qed.

(** The summary of a record whose status is a dict (or missing) and whose
    spans are a list (or missing). *)
Lemma extract_trace_info_record d st spans :
  d <> [] ->
  get (PyDict d) "status" (PyDict []) = Return (PyDict st) ->
  get (PyDict d) "spans" (PyList []) = Return (PyList spans) ->
  extract_trace_info (PyDict d) =
  let info := [("trace_id", field d "trace_id"); ("status", field st "code");
               ("spans", PyInt (Z.of_nat (List.length spans)))] in
  match spans with
  | [] => Return info
  | first_span :: _ =>
      exec (attributes <- lift (get first_span "attributes" (PyDict [])) ;;
            for_in ["mlflow.spanInputs"; "mlflow.spanOutputs"] (extract_tag attributes))
           info
  end.
Proof.
  intros Hd Hst Hsp.
  assert (Ht : truthy (PyDict d) = true) by (destruct d; [contradiction|reflexivity]).
  unfold get in Hst, Hsp. injection Hst as Hst. injection Hsp as Hsp.
  unfold extract_trace_info, exec, bind, lift, put. rewrite Ht.
  cbn [negb get]. rewrite Hst. cbn [get len]. rewrite Hsp. cbn [get len truthy].
  destruct spans as [|first_span spans]; reflexivity.
Qed.

Lemma extract_tag_inputs_returns attrs info :
  decodes_or_rejected attrs "mlflow.spanInputs" = true ->
  exists info', extract_tag (PyDict attrs) "mlflow.spanInputs" info = (Return Next, info').
Proof.
  unfold decodes_or_rejected. intros H.
  destruct (dict_get "mlflow.spanInputs" attrs) as [[]|] eqn:E; try discriminate.
  - rewrite (extract_tag_inputs _ _ _ E).
    destruct (json_loads s) as [decoded|e]; [eauto|]. rewrite H. eauto.
  - rewrite (extract_tag_missing _ _ _ E). eauto.
Qed.

Lemma extract_tag_outputs_returns attrs info :
  decodes_or_rejected attrs "mlflow.spanOutputs" = true ->
  exists info',
    extract_tag (PyDict attrs) "mlflow.spanOutputs" info = (Return Next, info')
    /\ forall k, k <> "output_tokens" -> dict_get k info' = dict_get k info.
Proof.
  unfold decodes_or_rejected. intros H.
  destruct (dict_get "mlflow.spanOutputs" attrs) as [[]|] eqn:E; try discriminate.
  - rewrite (extract_tag_outputs _ _ _ E).
    destruct (json_loads s) as [[]|e]; try rewrite H;
      eexists; split; try reflexivity; auto.
    intros k Hk. apply dict_get_set_other. congruence.
  - rewrite (extract_tag_missing _ _ _ E). eauto.
Qed.

(** The summary of a record whose first span is a dict with a dict of
    attributes: the three direct fields, then the two iterations. *)
Lemma extract_trace_info_first_span d st sp rest attrs :
  get (PyDict d) "status" (PyDict []) = Return (PyDict st) ->
  dict_get "spans" d = Some (PyList (PyDict sp :: rest)) ->
  get (PyDict sp) "attributes" (PyDict []) = Return (PyDict attrs) ->
  extract_trace_info (PyDict d) =
  exec (for_in ["mlflow.spanInputs"; "mlflow.spanOutputs"] (extract_tag (PyDict attrs)))
       [("trace_id", field d "trace_id"); ("status", field st "code");
        ("spans", PyInt (Z.of_nat (S (List.length rest))))].
Proof.
  intros Hst Hsp Hattr.
  rewrite (extract_trace_info_record d st (PyDict sp :: rest)); trivial.
  - cbv zeta. unfold exec, bind at 1, lift. now rewrite Hattr.
  - intros ->. discriminate.
  - unfold get. now rewrite Hsp.
Qed.

(** C7. A non-empty record without spans has the summary made of its
    identifier, its status code and the span count 0, and nothing else:
    none of the four fields read from a span is in it. *)
Theorem extract_trace_info_no_spans (d st : dict) :
  d <> [] ->
  get (PyDict d) "status" (PyDict []) = Return (PyDict st) ->
  get (PyDict d) "spans" (PyList []) = Return (PyList []) ->
  extract_trace_info (PyDict d) =
    Return [("trace_id", field d "trace_id"); ("status", field st "code");
            ("spans", PyInt 0)]
  /\ forall info, extract_trace_info (PyDict d) = Return info ->
       dict_get "index" info = None /\ dict_get "data_source" info = None
       /\ dict_get "sample_index" info = None /\ dict_get "output_tokens" info = None.
Proof.
  intros Hd Hst Hsp.
  rewrite (extract_trace_info_record d st []) by assumption.
  split; [reflexivity|].
  intros info H. injection H as <-. repeat split.
Qed.

(** C3, as the code has it.  On a record whose first span has a
    [mlflow.spanOutputs] attribute that decodes to an object with a
    [token_ids] field, the inputs attribute being missing, decoded or
    rejected as not JSON, the summarizer returns (no exception), and the
    summary holds [output_tokens]: the length of [token_ids] when that is a
    list, and None when it is anything else.  The key is set either way
    (line 56); it is not left out of the summary. *)
Theorem extract_trace_info_output_tokens (d st sp : dict) (rest : list value)
    (attrs : dict) (text : string) (data : dict) (token_ids : value) :
  get (PyDict d) "status" (PyDict []) = Return (PyDict st) ->
  dict_get "spans" d = Some (PyList (PyDict sp :: rest)) ->
  get (PyDict sp) "attributes" (PyDict []) = Return (PyDict attrs) ->
  decodes_or_rejected attrs "mlflow.spanInputs" = true ->
  dict_get "mlflow.spanOutputs" attrs = Some (PyStr text) ->
  json_loads text = Return (PyDict data) ->
  dict_get "token_ids" data = Some token_ids ->
  exists info,
    extract_trace_info (PyDict d) = Return info
    /\ (forall l, token_ids = PyList l ->
          dict_get "output_tokens" info = Some (PyInt (Z.of_nat (List.length l))))
    /\ (is_list token_ids = false -> dict_get "output_tokens" info = Some PyNone).
Proof.
  intros Hst Hsp Hattr Hin Hout Hdata Htok.
  rewrite (extract_trace_info_first_span d st sp rest attrs) by assumption.
  unfold exec. rewrite for_in_cons.
  match goal with |- context [extract_tag _ _ ?i] =>
    destruct (extract_tag_inputs_returns attrs i Hin) as [info1 ->]
  end.
  rewrite for_in_cons, (extract_tag_outputs _ _ _ Hout), Hdata, Htok.
  eexists. split; [reflexivity|]. rewrite dict_get_set_same. split.
  - now intros l ->.
  - destruct token_ids; try reflexivity. discriminate.
Qed.

(** C6. On a record whose first span has a [mlflow.spanInputs] attribute
    that decodes to an object with an object (or nothing) under [kwargs],
    the outputs attribute being missing, decoded or rejected as not JSON,
    the summarizer returns, and the summary's [index] and [data_source] are
    what [kwargs] has under [index] and [data_source]; [sample_index] is
    what [extra_info] has under [index] when [extra_info] is an object, and
    is not set when [extra_info] is anything else. *)
Theorem extract_trace_info_inputs (d st sp : dict) (rest : list value)
    (attrs : dict) (text : string) (data kw : dict) :
  get (PyDict d) "status" (PyDict []) = Return (PyDict st) ->
  dict_get "spans" d = Some (PyList (PyDict sp :: rest)) ->
  get (PyDict sp) "attributes" (PyDict []) = Return (PyDict attrs) ->
  dict_get "mlflow.spanInputs" attrs = Some (PyStr text) ->
  json_loads text = Return (PyDict data) ->
  get (PyDict data) "kwargs" (PyDict []) = Return (PyDict kw) ->
  decodes_or_rejected attrs "mlflow.spanOutputs" = true ->
  exists info,
    extract_trace_info (PyDict d) = Return info
    /\ field info "index" = field kw "index"
    /\ field info "data_source" = field kw "data_source"
    /\ (forall ex, get (PyDict kw) "extra_info" (PyDict []) = Return (PyDict ex) ->
          field info "sample_index" = field ex "index")
    /\ (forall extra, get (PyDict kw) "extra_info" (PyDict []) = Return extra ->
          is_dict extra = false -> dict_get "sample_index" info = None).
Proof.
  intros Hst Hsp Hattr Hin Hdata Hkw Hout.
  rewrite (extract_trace_info_first_span d st sp rest attrs) by assumption.
  unfold exec. rewrite for_in_cons, (extract_tag_inputs _ _ _ Hin), Hdata.
  unfold get in Hkw. injection Hkw as ->. cbv zeta.
  rewrite for_in_cons.
  match goal with |- context [extract_tag _ _ ?i] =>
    destruct (extract_tag_outputs_returns attrs i Hout) as (info & -> & Hframe)
  end.
  exists info. split; [reflexivity|].
  unfold field at 1 3 5.
  rewrite !Hframe by discriminate.
  unfold get.
  destruct (match dict_get "extra_info" kw with Some x => x | None => PyDict [] end)
    as [| | | | | |ex] eqn:E;
    repeat rewrite ?dict_get_set_same, ?dict_get_set_other by discriminate;
    (split; [reflexivity|]); (split; [reflexivity|]);
    (split; [intros ex' [=]; try subst ex'; try reflexivity
            |intros extra [=] Hno; subst extra; try reflexivity; try discriminate]).
Qed.

(** X1. When each of the two attributes of the first span is missing, or
    is a string that [json.loads] decodes or rejects as not JSON, the
    summarizer returns, and an attribute that does not decode, or decodes
    to something else than the expected objects, leaves its fields out of
    the summary.  (What else [json.loads] raises on a string, a
    [ValueError] or a [RecursionError], line 57 does not catch.) *)
Lemma extract_trace_info_swallows (d st sp : dict) (rest : list value) (attrs : dict) :
  get (PyDict d) "status" (PyDict []) = Return (PyDict st) ->
  dict_get "spans" d = Some (PyList (PyDict sp :: rest)) ->
  get (PyDict sp) "attributes" (PyDict []) = Return (PyDict attrs) ->
  decodes_or_rejected attrs "mlflow.spanInputs" = true ->
  decodes_or_rejected attrs "mlflow.spanOutputs" = true ->
  exists info,
    extract_trace_info (PyDict d) = Return info
    /\ ((forall text data kw,
           dict_get "mlflow.spanInputs" attrs = Some (PyStr text) ->
           json_loads text = Return (PyDict data) ->
           get (PyDict data) "kwargs" (PyDict []) <> Return (PyDict kw)) ->
        dict_get "index" info = None /\ dict_get "data_source" info = None
        /\ dict_get "sample_index" info = None)
    /\ ((forall text data,
           dict_get "mlflow.spanOutputs" attrs = Some (PyStr text) ->
           json_loads text <> Return (PyDict data)) ->
        dict_get "output_tokens" info = None).
Proof.
  intros Hst Hsp Hattr Hin Hout.
  rewrite (extract_trace_info_first_span d st sp rest attrs) by assumption.
  unfold exec. rewrite for_in_cons.
  set (info0 := [("trace_id", field d "trace_id"); ("status", field st "code");
                 ("spans", PyInt (Z.of_nat (S (List.length rest))))]).
  assert (Hin' :
    exists info1, extract_tag (PyDict attrs) "mlflow.spanInputs" info0 = (Return Next, info1)
      /\ dict_get "output_tokens" info1 = None
      /\ ((forall text data kw,
             dict_get "mlflow.spanInputs" attrs = Some (PyStr text) ->
             json_loads text = Return (PyDict data) ->
             get (PyDict data) "kwargs" (PyDict []) <> Return (PyDict kw)) ->
          info1 = info0)).
  { unfold decodes_or_rejected in Hin.
    destruct (dict_get "mlflow.spanInputs" attrs) as [[]|] eqn:E; try discriminate.
    - rewrite (extract_tag_inputs _ _ _ E).
      destruct (json_loads s) as [[| | | | | |data]|e] eqn:J; try rewrite Hin;
        try (eexists; repeat split; reflexivity).
      unfold get.
      destruct (match dict_get "kwargs" data with Some x => x | None => PyDict [] end)
        as [| | | | | |kw] eqn:K; try (eexists; repeat split; reflexivity).
      eexists. split; [reflexivity|]. split.
      + cbv zeta.
        destruct (match dict_get "extra_info" kw with Some x => x | None => PyDict [] end);
          repeat rewrite dict_get_set_other by discriminate; reflexivity.
      + intros H. exfalso. apply (H s data kw); trivial. unfold get. now rewrite K.
    - rewrite (extract_tag_missing _ _ _ E). eexists. repeat split. }
  destruct Hin' as (info1 & -> & Hno & Hsame).
  rewrite for_in_cons. unfold decodes_or_rejected in Hout.
  destruct (dict_get "mlflow.spanOutputs" attrs) as [[]|] eqn:E; try discriminate.
  - rewrite (extract_tag_outputs _ _ _ E).
    destruct (json_loads s) as [[| | | | | |data]|e] eqn:J; try rewrite Hout;
      try (exists info1; split; [reflexivity|]; split;
           [intros H; rewrite (Hsame H); repeat split|intros _; exact Hno]).
    eexists. split; [reflexivity|]. split.
    + intros H. rewrite (Hsame H).
      repeat rewrite dict_get_set_other by discriminate. repeat split.
    + intros H. exfalso. now apply (H s data).
  - rewrite (extract_tag_missing _ _ _ E). exists info1. split; [reflexivity|]. split.
    + intros H. rewrite (Hsame H). repeat split.
    + intros _. exact Hno.
Qed.

(** C2. A [mlflow.spanInputs] attribute that is not a string makes
    [json.loads] raise a [TypeError], which the [except] clause of the
    summarizer does not name: the summarizer raises it. *)
Theorem extract_trace_info_raises_TypeError :
  extract_trace_info
    (PyDict [("trace_id", PyStr "t");
             ("spans",
              PyList [PyDict [("attributes",
                               PyDict [("mlflow.spanInputs", PyInt 5)])]])])
  = Raise TypeError.
Proof. reflexivity. Qed.

(** ** The detail view *)

(** What the detail view prints for a span that is a dict with a dict of
    attributes; it raises nothing there. *)
Lemma show_span_lines i sp attrs out :
  get (PyDict sp) "attributes" (PyDict []) = Return (PyDict attrs) ->
  show_span (i, PyDict sp) out =
  (Return Next,
   (out ++ [(nl ++ "  [" ++ int_str i ++ "] " ++ str (field sp "name"))%string]
        ++ match dict_get "mlflow.spanInputs" attrs with
           | Some (PyStr text) =>
               match json_loads text with
               | Return inputs =>
                   [("      Inputs: " ++ slice_to 500 (json_dumps inputs 8) ++ "...")%string]
               | Raise _ => []
               end
           | _ => []
           end
        ++ match dict_get "mlflow.spanOutputs" attrs with
           | Some (PyStr text) =>
               match json_loads text with
               | Return outputs =>
                   [("      Outputs: " ++ slice_to 500 (json_dumps outputs 8) ++ "...")%string]
               | Raise _ => []
               end
           | _ => []
           end)%list).
Proof.
  intros Hattr. unfold get in Hattr. injection Hattr as Hattr.
  unfold show_span, bind, lift, ret, print, modify, try_except_pass, any_error.
  cbn [get]. rewrite Hattr. cbn [contains subscript].
  fold (field sp "name").
  destruct (dict_get "mlflow.spanInputs" attrs) as [[| | | | s | |]|];
    cbn [loads]; try destruct (json_loads s);
    destruct (dict_get "mlflow.spanOutputs" attrs) as [[| | | | s' | |]|];
    cbn [loads]; try destruct (json_loads s');
    rewrite <- ?app_assoc; reflexivity.
Qed.

(** C9. For a span whose inputs (or outputs) attribute decodes to a payload
    that [json.dumps] renders in more than 500 characters, the detail view
    raises nothing and prints, behind the label, the first 500 characters
    of the rendering followed by the marker [...]. *)
Theorem show_span_truncates (i : Z) (sp attrs : dict) (out : list string)
    (key label text : string) (payload : value) :
  (key, label) = ("mlflow.spanInputs", "Inputs")
    \/ (key, label) = ("mlflow.spanOutputs", "Outputs") ->
  get (PyDict sp) "attributes" (PyDict []) = Return (PyDict attrs) ->
  dict_get key attrs = Some (PyStr text) ->
  json_loads text = Return payload ->
  (500 < String.length (json_dumps payload 8))%nat ->
  exists shown out',
    show_span (i, PyDict sp) out = (Return Next, out')
    /\ In ("      " ++ label ++ ": " ++ shown ++ "...") out'
    /\ shown = slice_to 500 (json_dumps payload 8)
    /\ String.length shown = 500%nat
    /\ String.prefix shown (json_dumps payload 8) = true.
Proof.
  intros Hkey Hattr Hget Hloads Hlong.
  exists (slice_to 500 (json_dumps payload 8)). eexists.
  split; [apply (show_span_lines i sp attrs out Hattr)|].
  split; [|split; [reflexivity|split]].
  - destruct Hkey as [[= -> ->]|[= -> ->]]; rewrite Hget, Hloads;
      rewrite !in_app_iff; simpl In; tauto.
  - rewrite slice_to_length. lia.
  - apply slice_to_prefix.
Qed.

(** ** More on the summarizer *)

Lemma writes_only_ret {A} keys (a : A) : writes_only keys (ret a).
Proof using Type. intros info r info' [= <- <-] k _. reflexivity. Qed.

Lemma writes_only_lift {A} keys (r : outcome A) : writes_only keys (lift r).
Proof using Type. intros info r' info' [= <- <-] k _. reflexivity. Qed.

Lemma writes_only_set keys k v :
  In k keys -> writes_only keys (modify (dict_set k v)).
Proof using Type.
  intros Hin info r info' [= <- <-] k' Hk'.
  apply dict_get_set_other. intros ->. contradiction.
Qed.

Lemma writes_only_bind {A B} keys (c : M dict A) (f : A -> M dict B) :
  writes_only keys c -> (forall a, writes_only keys (f a)) ->
  writes_only keys (bind c f).
Proof using Type.
  intros Hc Hf info r info' H k Hk. unfold bind in H.
  destruct (c info) as [[a|e] info1] eqn:E.
  - rewrite (Hf a _ _ _ H k Hk). exact (Hc _ _ _ E k Hk).
  - injection H as <- <-. exact (Hc _ _ _ E k Hk).
Qed.

Lemma writes_only_try keys (c : M dict unit) handled :
  writes_only keys c -> writes_only keys (try_except_pass c handled).
Proof using Type.
  intros Hc info r info' H k Hk. unfold try_except_pass in H.
  destruct (c info) as [[a|e] info1] eqn:E.
  - injection H as <- <-. exact (Hc _ _ _ E k Hk).
  - destruct (handled e); injection H as <- <-; exact (Hc _ _ _ E k Hk).
Qed.

Lemma writes_only_if {A} keys (b : bool) (c1 c2 : M dict A) :
  writes_only keys c1 -> writes_only keys c2 ->
  writes_only keys (if b then c1 else c2).
Proof using Type. now destruct b. Qed.

Lemma writes_only_for_in {A} keys (xs : list A) (body : A -> M dict flow) :
  (forall x, writes_only keys (body x)) -> writes_only keys (for_in xs body).
Proof using Type.
  intros Hbody. induction xs as [|x xs IH]; simpl.
  - apply writes_only_ret.
  - apply writes_only_bind; [apply Hbody|].
    intros []; [exact IH|apply writes_only_ret].
Qed.

Ltac writes_only :=
  repeat first
    [ apply writes_only_ret
    | apply writes_only_lift
    | apply writes_only_set; simpl; tauto
    | apply writes_only_try
    | apply writes_only_for_in; intros ?
    | apply writes_only_if
    | apply writes_only_bind; [|intros ?] ].

(** An iteration over an attribute key writes to the four fields read from
    a span and to no other, whatever the attributes are. *)
Lemma extract_tag_writes_only attributes key :
  writes_only span_fields (extract_tag attributes key).
Proof using Type. clear str_repr json_dumps. unfold extract_tag, span_fields. writes_only. Qed.

Lemma exec_bind_lift {S A B} (r : outcome A) (f : A -> M S B) (s : S) :
  exec (bind (lift r) f) s =
  match r with
  | Return a => exec (f a) s
  | Raise e => Raise e
  end.
Proof using Type. unfold exec, bind, lift. now destruct r. Qed.

Lemma exec_bind_put {S B} (s0 : S) (f : unit -> M S B) (s : S) :
  exec (bind (put s0) f) s = exec (f tt) s0.
Proof using Type. reflexivity. Qed.

Lemma exec_writes_only {A} keys (c : M dict A) info info' :
  writes_only keys c -> exec c info = Return info' ->
  forall k, ~ In k keys -> dict_get k info' = dict_get k info.
Proof using Type.
  intros Hc H. unfold exec in H.
  destruct (c info) as [[a|e] s] eqn:E; [|discriminate].
  injection H as <-. exact (Hc _ _ _ E).
Qed.

(** The direct fields of the summary of a truthy record. *)
Lemma summary_of_truthy (trace_data : value) (info : dict) :
  extract_trace_info trace_data = Return info ->
  truthy trace_data = true ->
  exists d status code spans n,
    trace_data = PyDict d
    /\ get trace_data "status" (PyDict []) = Return status
    /\ get status "code" PyNone = Return code
    /\ get trace_data "spans" (PyList []) = Return spans
    /\ len spans = Return n
    /\ 0 <= n
    /\ forall k, ~ In k span_fields ->
         dict_get k info =
         dict_get k [("trace_id", field d "trace_id"); ("status", code);
                     ("spans", PyInt n)].
Proof using Type. clear str_repr json_dumps.
  intros H T. unfold extract_trace_info in H. rewrite T in H. cbn [negb] in H.
  destruct trace_data as [| | | | | |d]; try discriminate H.
  rewrite !exec_bind_lift in H. cbn [get] in H.
  rewrite exec_bind_lift in H.
  destruct (get _ "code" PyNone) as [code|] eqn:Hcode; [|discriminate].
  rewrite exec_bind_lift in H.
  rewrite exec_bind_lift in H.
  destruct (len _) as [n|] eqn:Hlen; [|discriminate].
  rewrite exec_bind_lift, exec_bind_put in H.
  exists d. do 4 eexists. split; [reflexivity|]. split; [reflexivity|].
  split; [exact Hcode|]. split; [reflexivity|]. split; [exact Hlen|]. split.
  - clear H. unfold len in Hlen.
    destruct (match dict_get "spans" d with Some x => x | None => PyList [] end);
      try discriminate; injection Hlen as <-; lia.
  - eapply exec_writes_only; [|exact H].
    unfold span_fields. writes_only.
Qed.

Lemma summary_of_truthy_not_empty (trace_data : value) (info : dict) :
  extract_trace_info trace_data = Return info ->
  truthy trace_data = true -> info <> [].
Proof using Type. clear str_repr json_dumps.
  intros H T ->.
  destruct (summary_of_truthy _ _ H T) as (d & status & code & spans & n & _ & _ & _ & _ & _ & _ & Hk).
  specialize (Hk "trace_id"). simpl in Hk. discriminate Hk.
  unfold span_fields. simpl. intuition discriminate.
Qed.

Lemma summary_has_no_path (trace_data : value) (info : dict) :
  extract_trace_info trace_data = Return info -> dict_get "path" info = None.
Proof using Type. clear str_repr json_dumps.
  intros H. destruct (truthy trace_data) eqn:T.
  - destruct (summary_of_truthy _ _ H T) as (d & status & code & spans & n & _ & _ & _ & _ & _ & _ & Hk).
    rewrite Hk; [reflexivity|]. unfold span_fields. simpl. intuition discriminate.
  - unfold extract_trace_info in H. rewrite T in H. now injection H as <-.
Qed.

(** X2. The summary is empty exactly for a falsy record.  Every other
    record that has a summary is a dict, and its summary holds the
    record's [trace_id], the [code] of its status and the length of its
    spans, with nothing but the four fields read from the first span
    beside them: whatever the span holds, these three are not overwritten
    and no other key ([path] among them) is set. *)
Theorem extract_trace_info_direct_fields (trace_data : value) (info : dict) :
  extract_trace_info trace_data = Return info ->
  (info = [] <-> truthy trace_data = false)
  /\ (truthy trace_data = true ->
      exists d status code spans n,
        trace_data = PyDict d
        /\ get trace_data "status" (PyDict []) = Return status
        /\ get status "code" PyNone = Return code
        /\ get trace_data "spans" (PyList []) = Return spans
        /\ len spans = Return n
        /\ 0 <= n
        /\ forall k, ~ In k span_fields ->
             dict_get k info =
             dict_get k [("trace_id", field d "trace_id"); ("status", code);
                         ("spans", PyInt n)]).
Proof using Type. clear json_dumps.
  intros H. split; [|now apply summary_of_truthy].
  destruct (truthy trace_data) eqn:T.
  - split; [|discriminate]. intros ->.
    now destruct (summary_of_truthy_not_empty _ _ H T).
  - unfold extract_trace_info in H. rewrite T in H. injection H as <-. tauto.
Qed.

(** ** More on the listing *)

Lemma limit_reached_app limit (a b : list dict) :
  limit_reached limit (a ++ b)%list = false -> limit_reached limit a = false.
Proof using Type.
  destruct limit as [n|]; [|reflexivity]. simpl. rewrite length_app.
  destruct (n =? 0); [reflexivity|]. simpl.
  rewrite !Z.leb_gt. lia.
Qed.

(** Folders that load and summarize, and do not fill the limit, are gone
    through as without a limit. *)
Lemma loop_through filters limit scanned rest traces :
  Forall (fun p => exists trace_data info,
            load_trace p = Return trace_data
            /\ extract_trace_info trace_data = Return info) scanned ->
  limit_reached limit
    (traces ++ flat_map (fun p => snd (visit filters None p [])) scanned)%list = false ->
  for_in (scanned ++ rest) (visit filters limit) traces =
  for_in rest (visit filters limit)
    (traces ++ flat_map (fun p => snd (visit filters None p [])) scanned)%list.
Proof using Type.
  intros H. revert traces.
  induction H as [|p scanned (td & info & Hl & He) _ IH]; intros traces Hlim.
  - simpl. now rewrite app_nil_r.
  - simpl in Hlim. rewrite app_assoc in Hlim.
    pose proof (limit_reached_app _ _ _ (limit_reached_app _ _ _ Hlim)) as Hnow.
    simpl app. rewrite for_in_cons, (visit_below_limit _ _ _ _ Hnow), visit_alone.
    assert (E : fst (visit filters None p []) = Return Next).
    { rewrite visit_unfold. simpl. now rewrite Hl, He. }
    rewrite E, (IH _ Hlim). simpl. now rewrite app_assoc.
Qed.

(** X3. The listing stops at the first trace folder, in sorted order, whose
    trace file does not load or does not summarize: when the folders
    before it load and summarize without filling the limit, the listing
    raises that folder's exception, and the summaries collected so far are
    not returned. *)
Theorem list_traces_aborts (trace_dir : list Path)
    (filters : option (list (string * string))) (limit : option Z)
    (scanned unscanned : list Path) (p : Path) (e : exn) :
  trace_folders trace_dir = (scanned ++ p :: unscanned)%list ->
  Forall (fun p => exists trace_data info,
            load_trace p = Return trace_data
            /\ extract_trace_info trace_data = Return info) scanned ->
  limit_reached limit (flat_map (fun p => snd (visit filters None p [])) scanned) = false ->
  load_trace p = Raise e
    \/ (exists trace_data, load_trace p = Return trace_data
                           /\ extract_trace_info trace_data = Raise e) ->
  list_traces trace_dir filters limit = Raise e.
Proof using Type.
  intros Hsplit Hret Hlim Hraise.
  unfold list_traces, exec. rewrite Hsplit.
  rewrite (loop_through filters limit scanned (p :: unscanned) [] Hret Hlim).
  rewrite for_in_cons, visit_unfold. simpl app. rewrite Hlim.
  destruct Hraise as [->|(td & -> & ->)]; reflexivity.
Qed.

Lemma loop_length filters limit folders traces out :
  for_in folders (visit filters limit) traces = (Return tt, out) ->
  (List.length out <= List.length traces + List.length folders)%nat
  /\ forall n, limit = Some n -> 0 < n ->
       (Z.of_nat (List.length traces) <= n -> Z.of_nat (List.length out) <= n).
Proof using Type.
  revert traces. induction folders as [|p rest IH]; intros traces H.
  - simpl in H. injection H as <-. split; [simpl; lia|auto].
  - rewrite for_in_cons, visit_unfold in H.
    destruct (limit_reached limit traces) eqn:L.
    + injection H as <-. split; [simpl; lia|auto].
    + destruct (load_trace p) as [td|]; [|discriminate].
      destruct (extract_trace_info td) as [info|]; [|discriminate].
      destruct (_ && passes filters info); apply IH in H as [H1 H2].
      * rewrite length_app in H1, H2. simpl in *. split; [lia|].
        intros n -> Hn Hlen. apply (H2 n eq_refl Hn).
        simpl in L. destruct (n =? 0) eqn:N0; [apply Z.eqb_eq in N0; lia|].
        simpl in L. apply Z.leb_gt in L. lia.
      * simpl. split; [lia|exact H2].
Qed.

(** X4. The listing returns at most as many summaries as there are trace
    folders, and with a positive limit at most that many. *)
Theorem list_traces_length (trace_dir : list Path)
    (filters : option (list (string * string))) (limit : option Z)
    (traces : list dict) :
  list_traces trace_dir filters limit = Return traces ->
  (List.length traces <= List.length (trace_folders trace_dir))%nat
  /\ forall n, limit = Some n -> 0 < n -> Z.of_nat (List.length traces) <= n.
Proof using Type.
  intros H. unfold list_traces, exec in H.
  destruct (for_in (trace_folders trace_dir) (visit filters limit) [])
    as [[[]|e] out] eqn:E; [|discriminate].
  injection H as ->.
  apply loop_length in E as [H1 H2]. split; [exact H1|].
  intros n Hl Hn. apply (H2 n Hl Hn). simpl. lia.
Qed.

(** X5. With a negative limit the listing is empty whatever the trace
    directory holds: the loop ends before it loads a trace file, so no
    malformed file can make it raise. *)
Theorem list_traces_negative_limit (trace_dir : list Path)
    (filters : option (list (string * string))) (n : Z) :
  n < 0 -> list_traces trace_dir filters (Some n) = Return [].
Proof using Type.
  intros Hn. unfold list_traces, exec.
  destruct (trace_folders trace_dir) as [|p rest]; [reflexivity|].
  rewrite for_in_cons, visit_at_limit; [reflexivity|].
  simpl. apply andb_true_intro. split.
  - apply negb_true_iff, Z.eqb_neq. lia.
  - apply Z.leb_le. lia.
Qed.

(** Where the summaries of the loop come from. *)
Lemma loop_provenance filters limit folders traces out :
  for_in folders (visit filters limit) traces = (Return tt, out) ->
  exists added,
    out = (traces ++ added)%list
    /\ Forall (fun summary =>
                 exists p trace_data info,
                   In p folders
                   /\ load_trace p = Return trace_data
                   /\ extract_trace_info trace_data = Return info
                   /\ info <> []
                   /\ passes filters info = true
                   /\ summary = dict_set "path" (PyStr (fspath p)) info) added.
Proof using Type.
  revert traces. induction folders as [|p rest IH]; intros traces H.
  - simpl in H. injection H as <-. exists []. now rewrite app_nil_r.
  - rewrite for_in_cons, visit_unfold in H.
    destruct (limit_reached limit traces).
    { injection H as <-. exists []. now rewrite app_nil_r. }
    destruct (load_trace p) as [td|] eqn:Hl; [|discriminate].
    destruct (extract_trace_info td) as [info|] eqn:He; [|discriminate].
    destruct (truthy (PyDict info) && passes filters info) eqn:K;
      apply IH in H as (added & -> & Hall).
    + apply andb_prop in K as [Ht Hp].
      exists (dict_set "path" (PyStr (fspath p)) info :: added).
      rewrite <- app_assoc. split; [reflexivity|]. constructor.
      * exists p, td, info. repeat split; trivial; [now left|].
        intros ->. discriminate Ht.
      * eapply Forall_impl; [|exact Hall].
        intros s (q & td' & info' & Hq & Hrest). exists q, td', info'.
        split; [now right|exact Hrest].
    + exists added. split; [reflexivity|].
      eapply Forall_impl; [|exact Hall].
      intros s (q & td' & info' & Hq & Hrest). exists q, td', info'.
      split; [now right|exact Hrest].
Qed.

Lemma field_set_other k k' v d : k' <> k -> field (dict_set k' v d) k = field d k.
Proof using Type. intros H. unfold field. now rewrite dict_get_set_other. Qed.

(** X6. Every summary the listing returns is the summary of a trace folder
    with the folder's path added under [path]: it is not empty, it keeps
    every field of the folder's summary, and it meets every filter on a
    field other than [path]. *)
Theorem list_traces_sound (trace_dir : list Path)
    (filters : option (list (string * string))) (limit : option Z)
    (traces : list dict) :
  list_traces trace_dir filters limit = Return traces ->
  Forall (fun summary =>
            exists p trace_data info,
              In p (trace_folders trace_dir)
              /\ load_trace p = Return trace_data
              /\ extract_trace_info trace_data = Return info
              /\ info <> []
              /\ field summary "path" = PyStr (fspath p)
              /\ (forall k, k <> "path" -> field summary k = field info k)
              /\ (forall fs k v, filters = Some fs -> In (k, v) fs -> k <> "path" ->
                    str (field summary k) = v)) traces.
Proof using Type.
  intros H. unfold list_traces, exec in H.
  destruct (for_in (trace_folders trace_dir) (visit filters limit) [])
    as [[[]|e] out] eqn:E; [|discriminate].
  injection H as ->.
  apply loop_provenance in E as (added & -> & Hall). simpl.
  eapply Forall_impl; [|exact Hall].
  intros s (p & td & info & Hp & Hl & He & Hne & Hpass & ->).
  exists p, td, info. repeat split; trivial.
  - apply field_set_same.
  - intros k Hk. apply field_set_other. congruence.
  - intros fs k v -> Hin Hk.
    rewrite field_set_other by congruence.
    destruct fs as [|f fs]; [contradiction|].
    unfold passes in Hpass. now apply (proj1 (all_match_spec _ _) Hpass).
Qed.

(** X7. [path] is set after the filters are applied, so a filter on [path]
    is compared with None: unless its expected string is None, the listing
    returns nothing. *)
Theorem list_traces_path_filter (trace_dir : list Path)
    (filters : list (string * string)) (limit : option Z) (v : string)
    (traces : list dict) :
  In ("path", v) filters -> v <> "None" ->
  list_traces trace_dir (Some filters) limit = Return traces ->
  traces = [].
Proof using Type.
  intros Hin Hv H. unfold list_traces, exec in H.
  destruct (for_in (trace_folders trace_dir) (visit (Some filters) limit) [])
    as [[[]|e] out] eqn:E; [|discriminate].
  injection H as ->.
  apply loop_provenance in E as (added & -> & Hall). simpl.
  destruct added as [|s added]; [reflexivity|]. exfalso.
  inversion Hall as [|? ? (p & td & info & _ & _ & He & _ & Hpass & _) _]; subst.
  destruct filters as [|f fs]; [contradiction|].
  unfold passes in Hpass.
  pose proof (proj1 (all_match_spec _ _) Hpass "path" v Hin) as Hstr.
  unfold field in Hstr. rewrite (summary_has_no_path _ _ He) in Hstr.
  apply Hv. symmetry. exact Hstr.
Qed.

Lemma name_injective (l : list Path) (a b : Path) :
  NoDup (map name l) -> In a l -> In b l -> name a = name b -> a = b.
Proof using Type.
  induction l as [|c l IH]; simpl; [contradiction|].
  intros Hnd Ha Hb Hab. inversion Hnd as [|? ? Hc Hnd']; subst.
  destruct Ha as [<-|Ha], Hb as [<-|Hb]; trivial.
  - exfalso. apply Hc. rewrite Hab. now apply in_map.
  - exfalso. apply Hc. rewrite <- Hab. now apply in_map.
  - now apply IH.
Qed.

Lemma NoDup_names_filter (f : Path -> bool) (l : list Path) :
  NoDup (map name l) -> NoDup (map name (filter f l)).
Proof using Type.
  induction l as [|c l IH]; simpl; [trivial|].
  intros Hnd. inversion Hnd as [|? ? Hc Hnd']; subst.
  destruct (f c); simpl; [|now apply IH].
  constructor; [|now apply IH].
  intros Hin. apply Hc. apply in_map_iff in Hin as (x & Hx & Hin).
  apply filter_In in Hin as [Hin _]. rewrite <- Hx. now apply in_map.
Qed.

Lemma filter_perm (f : Path -> bool) (l l' : list Path) :
  Permutation l l' -> Permutation (filter f l) (filter f l').
Proof using Type.
  induction 1 as [|a l l' _ IH|a b l|l l' l'' _ IH1 _ IH2]; simpl.
  - constructor.
  - destruct (f a); [now constructor|exact IH].
  - destruct (f a), (f b); try reflexivity. apply perm_swap.
  - now transitivity (filter f l').
Qed.

(** Two lists in ascending order of name that hold the same paths, no two
    of the same name, are the same list. *)
Lemma sorted_unique (l1 l2 : list Path) :
  StronglySorted name_le l1 -> StronglySorted name_le l2 ->
  Permutation l1 l2 -> NoDup (map name l1) -> l1 = l2.
Proof using Type.
  intros H1. revert l2. induction H1 as [|a l1 Hs1 IH Ha]; intros l2 H2 Hp Hnd.
  - now apply Permutation_nil in Hp.
  - destruct H2 as [|b l2 Hs2 Hb].
    { apply Permutation_sym, Permutation_nil in Hp. discriminate. }
    assert (Hab : a = b).
    { assert (Hina : In a (b :: l2)) by (eapply Permutation_in; [exact Hp|now left]).
      assert (Hinb : In b (a :: l1))
        by (eapply Permutation_in; [exact (Permutation_sym Hp)|now left]).
      destruct Hina as [->|Hina]; [reflexivity|].
      destruct Hinb as [->|Hinb]; [reflexivity|].
      apply (name_injective (a :: l1)); trivial; [now left|now right|].
      apply String.leb_antisym.
      - exact (proj1 (Forall_forall _ _) Ha b Hinb).
      - exact (proj1 (Forall_forall _ _) Hb a Hina). }
    subst b. f_equal. apply IH; trivial.
    + now apply Permutation_cons_inv in Hp.
    + now inversion Hnd.
Qed.

(** X8. The listing does not depend on the order in which the directory
    yields its entries, no two of which have the same name. *)
Theorem list_traces_order_independent (trace_dir trace_dir' : list Path)
    (filters : option (list (string * string))) (limit : option Z) :
  Permutation trace_dir trace_dir' ->
  NoDup (map name trace_dir) ->
  trace_folders trace_dir = trace_folders trace_dir'
  /\ list_traces trace_dir filters limit = list_traces trace_dir' filters limit.
Proof using Type.
  intros Hp Hnd.
  assert (H : trace_folders trace_dir = trace_folders trace_dir').
  { unfold trace_folders. apply sorted_unique.
    - apply sorted_sorted.
    - apply sorted_sorted.
    - rewrite !sorted_perm. now apply filter_perm.
    - eapply Permutation_NoDup.
      + apply Permutation_map, Permutation_sym, sorted_perm.
      + now apply NoDup_names_filter. }
  split; [exact H|]. unfold list_traces. now rewrite H.
Qed.

(** ** More on the detail view *)

Lemma slice_to_short n s : (String.length s <= n)%nat -> slice_to n s = s.
Proof using Type.
  unfold slice_to. revert s. induction n as [|n IH]; intros [|c s] H; simpl in *;
    trivial; try lia.
  f_equal. apply IH. lia.
Qed.

(** X9. The marker [...] is printed behind every payload, cut or not: a
    payload that renders in 500 characters or fewer is printed in full,
    followed by the marker. *)
Theorem show_span_short_payload (i : Z) (sp attrs : dict) (out : list string)
    (key label text : string) (payload : value) :
  (key, label) = ("mlflow.spanInputs", "Inputs")
    \/ (key, label) = ("mlflow.spanOutputs", "Outputs") ->
  get (PyDict sp) "attributes" (PyDict []) = Return (PyDict attrs) ->
  dict_get key attrs = Some (PyStr text) ->
  json_loads text = Return payload ->
  (String.length (json_dumps payload 8) <= 500)%nat ->
  exists out',
    show_span (i, PyDict sp) out = (Return Next, out')
    /\ In ("      " ++ label ++ ": " ++ json_dumps payload 8 ++ "...") out'.
Proof using Type.
  intros Hkey Hattr Hget Hloads Hshort.
  eexists. split; [apply (show_span_lines i sp attrs out Hattr)|].
  destruct Hkey as [[= -> ->]|[= -> ->]]; rewrite Hget, Hloads;
    rewrite (slice_to_short _ _ Hshort), !in_app_iff; simpl In; tauto.
Qed.

(** The lines of the spans of a record, each span a dict with a dict of
    attributes. *)
Lemma show_spans_lines (spans : list value) :
  Forall (fun span => exists sp attrs,
            span = PyDict sp
            /\ get span "attributes" (PyDict []) = Return (PyDict attrs)) spans ->
  forall i out,
  exists lines,
    for_in (enumerate spans i) show_span out = (Return tt, (out ++ lines)%list)
    /\ (List.length spans <= List.length lines <= 3 * List.length spans)%nat.
Proof using Type.
  induction 1 as [|span spans (sp & attrs & -> & Hattr) _ IH]; intros i out.
  - exists []. simpl. rewrite app_nil_r. split; [reflexivity|lia].
  - simpl enumerate. rewrite for_in_cons, (show_span_lines i sp attrs out Hattr).
    match goal with |- context [for_in _ _ (out ++ ?new)%list] =>
      destruct (IH (i + 1) (out ++ new)%list) as (lines & -> & Hlen);
      exists (new ++ lines)%list
    end.
    rewrite <- !app_assoc. split; [reflexivity|].
    rewrite !length_app. simpl List.length.
    destruct (dict_get "mlflow.spanInputs" attrs) as [[| | | | s | |]|];
      try destruct (json_loads s);
      destruct (dict_get "mlflow.spanOutputs" attrs) as [[| | | | s' | |]|];
      try destruct (json_loads s'); simpl List.length; lia.
Qed.

(** X10. On a record whose status is a dict (or missing) and whose spans
    are dicts with a dict of attributes (or none), the detail view raises
    nothing, whatever the attributes hold: it prints the identifier, the
    status code and the number of spans, then for each span its name line
    and at most one line of inputs and one of outputs. *)
Theorem view_trace_detail_lines (p : Path) (text : string) (d status : dict)
    (spans : list value) :
  traces_json p = Some text ->
  json_loads text = Return (PyDict d) ->
  d <> [] ->
  get (PyDict d) "status" (PyDict []) = Return (PyDict status) ->
  get (PyDict d) "spans" (PyList []) = Return (PyList spans) ->
  Forall (fun span => exists sp attrs,
            span = PyDict sp
            /\ get span "attributes" (PyDict []) = Return (PyDict attrs)) spans ->
  exists lines,
    view_trace_detail p [] =
      (Return tt,
       ["Trace ID: " ++ str (field d "trace_id");
        "Status: " ++ str (field status "code");
        nl ++ "Spans (" ++ int_str (Z.of_nat (List.length spans)) ++ "):"]%string
         ++ lines)%list
    /\ (List.length spans <= List.length lines <= 3 * List.length spans)%nat.
Proof using Type.
  intros Hfile Hjson Hd Hst Hsp Hspans.
  destruct (show_spans_lines spans Hspans 1
              ["Trace ID: " ++ str (field d "trace_id");
               "Status: " ++ str (field status "code");
               nl ++ "Spans (" ++ int_str (Z.of_nat (List.length spans)) ++ "):"])
    as (lines & Hloop & Hlen).
  exists lines. split; [|exact Hlen]. rewrite <- Hloop.
  assert (Ht : truthy (PyDict d) = true) by (destruct d; [contradiction|reflexivity]).
  unfold get in Hst, Hsp. injection Hst as Hst. injection Hsp as Hsp.
  unfold view_trace_detail, load_trace, loads, bind, lift, print, modify.
  rewrite Hfile, Hjson, Ht. cbn [negb get]. rewrite Hst. cbn [get len].
  rewrite Hsp. cbn [len iterate app]. reflexivity.
Qed.

(** ** The command line *)

(** X11. A filter argument is split at its first [=]: it gives the key [k]
    and the value [v] exactly when it is [k=v] with no [=] in [k] (the
    value may hold more of them), and it gives nothing exactly when it
    holds no [=]. *)
Theorem split_eq_spec (f : string) :
  (forall k v, split_eq f = Some (k, v) <->
               f = k ++ "=" ++ v /\ ~ In "="%char (list_ascii_of_string k))
  /\ (split_eq f = None <-> ~ In "="%char (list_ascii_of_string f)).
Proof using Type. clear str_repr json_loads.
  induction f as [|c f [IHsome IHnone]]; simpl.
  - split.
    + intros k v. split; [discriminate|].
      intros [H _]. destruct k; discriminate.
    + tauto.
  - destruct (Ascii.eqb_spec c "=") as [->|Hc].
    + split.
      * intros k v. split.
        -- intros [= <- <-]. simpl. tauto.
        -- intros [H Hk]. destruct k as [|c' k]; simpl in *.
           ++ now injection H as <-.
           ++ injection H as <- _. tauto.
      * split; [discriminate|]. intros H. exfalso. apply H. now left.
    + split.
      * intros k v. split.
        -- destruct (split_eq f) as [[k' v']|] eqn:E; [|discriminate].
           intros [= <- <-]. destruct (proj1 (IHsome k' v') eq_refl) as [-> Hk]. simpl.
           split; [reflexivity|]. intros [H|H]; [congruence|contradiction].
        -- intros [H Hk]. destruct k as [|c' k]; simpl in *.
           ++ injection H as -> _. congruence.
           ++ injection H as <- ->.
              rewrite (proj2 (IHsome k v)); [reflexivity|]. tauto.
      * destruct (split_eq f) as [[k' v']|] eqn:E.
        -- split; [discriminate|]. intros H. exfalso.
           destruct (proj1 (IHsome k' v') eq_refl) as [-> _]. apply H. right.
           clear. induction k' as [|c' k' IH]; simpl; tauto.
        -- split; [|reflexivity]. intros _ [H|H]; [congruence|].
           now apply (proj1 IHnone eq_refl).
Qed.

Lemma filters_get_set_same k v filters : filters_get k (filters_set k v filters) = Some v.
Proof using Type.
  induction filters as [|[k' v'] filters IH]; simpl.
  - now rewrite String.eqb_refl.
  - destruct (String.eqb_spec k' k); simpl.
    + now rewrite String.eqb_refl.
    + destruct (String.eqb_spec k' k); [contradiction|exact IH].
Qed.

Lemma filters_get_set_other k k' v filters :
  k' <> k -> filters_get k (filters_set k' v filters) = filters_get k filters.
Proof using Type.
  intros Hne. induction filters as [|[k0 v0] filters IH]; simpl.
  - destruct (String.eqb_spec k' k); [contradiction|reflexivity].
  - destruct (String.eqb_spec k0 k'); simpl.
    + subst k0. destruct (String.eqb_spec k' k); [contradiction|reflexivity].
    + destruct (String.eqb_spec k0 k); [reflexivity|exact IH].
Qed.

Lemma filters_set_keys k v filters k' :
  In k' (map fst (filters_set k v filters)) <-> k' = k \/ In k' (map fst filters).
Proof using Type. clear str_repr json_loads.
  induction filters as [|[k0 v0] filters IH]; simpl.
  - intuition congruence.
  - destruct (String.eqb_spec k0 k); simpl.
    + subst k0. intuition congruence.
    + rewrite IH. intuition congruence.
Qed.

Lemma filters_set_NoDup k v filters :
  NoDup (map fst filters) -> NoDup (map fst (filters_set k v filters)).
Proof using Type.
  induction filters as [|[k0 v0] filters IH]; simpl; intros H.
  - repeat constructor. intros [].
  - inversion H as [|? ? Hk0 Hnd]; subst.
    destruct (String.eqb_spec k0 k); simpl.
    + subst k0. now constructor.
    + constructor; [|now apply IH].
      rewrite filters_set_keys. intros [->|Hin]; [congruence|contradiction].
Qed.

Lemma filters_get_In k v filters :
  NoDup (map fst filters) ->
  (In (k, v) filters <-> filters_get k filters = Some v).
Proof using Type. clear str_repr json_loads.
  induction filters as [|[k0 v0] filters IH]; simpl; intros H.
  - split; [contradiction|discriminate].
  - inversion H as [|? ? Hk0 Hnd]; subst.
    destruct (String.eqb_spec k0 k).
    + subst k0. split.
      * intros [[= ->]|Hin]; [reflexivity|].
        exfalso. apply Hk0. now apply (in_map fst) in Hin.
      * intros [= ->]. now left.
    + rewrite <- (IH Hnd). split; [|tauto].
      intros [[= -> _]|Hin]; [contradiction|exact Hin].
Qed.

Lemma parse_filters_fold (fs : list string) :
  parse_filters (Some fs) =
  fold_left (fun filters f =>
               match split_eq f with
               | Some (k, v) => filters_set k v filters
               | None => filters
               end) fs [].
Proof using Type. now destruct fs. Qed.

Lemma parse_filters_NoDup filter : NoDup (map fst (parse_filters filter)).
Proof using Type.
  destruct filter as [fs|]; [|constructor].
  rewrite parse_filters_fold.
  assert (H : NoDup (map fst (@nil (string * string)))) by constructor.
  revert H. generalize (@nil (string * string)).
  induction fs as [|f fs IH]; intros acc H; simpl; [exact H|].
  apply IH. destruct (split_eq f) as [[k v]|]; [now apply filters_set_NoDup|exact H].
Qed.

(** X12. The filters [main] builds from the [--filter] arguments: a key
    stands once, with the value of the last argument that gives it;
    every filter comes from an argument; and an argument without [=] is
    dropped without a word. *)
Theorem parse_filters_spec :
  (forall filter, NoDup (map fst (parse_filters filter)))
  /\ (forall filter k v,
        In (k, v) (parse_filters filter) <-> filters_get k (parse_filters filter) = Some v)
  /\ (forall fs f k v,
        split_eq f = Some (k, v) ->
        filters_get k (parse_filters (Some (fs ++ [f])%list)) = Some v
        /\ forall k', k' <> k ->
             filters_get k' (parse_filters (Some (fs ++ [f])%list)) =
             filters_get k' (parse_filters (Some fs)))
  /\ (forall fs k v,
        filters_get k (parse_filters (Some fs)) = Some v ->
        exists f, In f fs /\ split_eq f = Some (k, v))
  /\ (forall fs1 f fs2,
        split_eq f = None ->
        parse_filters (Some (fs1 ++ f :: fs2)%list) = parse_filters (Some (fs1 ++ fs2)%list)).
Proof using Type.
  split; [apply parse_filters_NoDup|].
  split; [intros; apply filters_get_In, parse_filters_NoDup|].
  split; [|split].
  - intros fs f k v Hf. rewrite !parse_filters_fold, fold_left_app. simpl.
    rewrite Hf. split.
    + apply filters_get_set_same.
    + intros k' Hk'. apply filters_get_set_other. congruence.
  - intros fs k v. rewrite parse_filters_fold.
    induction fs as [|f fs IH] using rev_ind; [discriminate|].
    rewrite fold_left_app. simpl. intros H.
    destruct (split_eq f) as [[k' v']|] eqn:Hf.
    + destruct (String.eqb_spec k' k) as [->|Hne].
      * rewrite filters_get_set_same in H. injection H as ->.
        exists f. split; [apply in_or_app; right; now left|exact Hf].
      * rewrite filters_get_set_other in H by exact Hne.
        destruct (IH H) as (f' & Hin & Hf'). exists f'.
        split; [apply in_or_app; now left|exact Hf'].
    + destruct (IH H) as (f' & Hin & Hf'). exists f'.
      split; [apply in_or_app; now left|exact Hf'].
  - intros fs1 f fs2 Hf. rewrite !parse_filters_fold, !fold_left_app. simpl.
    now rewrite Hf.
Qed.

Lemma length_append (s1 s2 : string) :
  String.length (s1 ++ s2) = (String.length s1 + String.length s2)%nat.
Proof using Type. induction s1 as [|c s1 IH]; simpl; [reflexivity|now rewrite IH]. Qed.

Lemma length_repeat_char c n : String.length (repeat_char c n) = n.
Proof using Type. induction n as [|n IH]; simpl; [reflexivity|now rewrite IH]. Qed.

Lemma length_ljust width s :
  String.length (ljust width s) = Nat.max width (String.length s).
Proof using Type. unfold ljust. rewrite length_append, length_repeat_char. lia. Qed.

(** A row never ends the loop over the traces. *)
Lemma show_row_next py trace out c out' :
  show_row py trace out = (Return c, out') -> c = Next.
Proof using Type.
  unfold show_row, bind, lift, print, modify, ret. intros H.
  repeat match type of H with
         | context [match ?x with _ => _ end] => destruct x; try discriminate H
         end.
  now injection H as <- _.
Qed.

Lemma rows_app py (before rest : list dict) out :
  for_in (before ++ rest) (show_row py) out =
  match for_in before (show_row py) out with
  | (Return _, out') => for_in rest (show_row py) out'
  | (Raise e, out') => (Raise e, out')
  end.
Proof using Type.
  revert out. induction before as [|t before IH]; intros out; [reflexivity|].
  simpl app. rewrite !for_in_cons.
  destruct (show_row py t out) as [[c|e] out'] eqn:E; [|reflexivity].
  rewrite (show_row_next _ _ _ _ _ E). apply IH.
Qed.

(** The row of a summary whose identifier is a string, whose span count is
    an int and whose data source is a string or is falsy. *)
Lemma show_row_text py trace id n source out :
  dict_get "trace_id" trace = Some (PyStr id) ->
  dict_get "spans" trace = Some (PyInt n) ->
  or_else (field trace "data_source") (PyStr "N/A") = PyStr source ->
  show_row py trace out =
  (Return Next,
   (out ++ [(ljust 40 (slice_to 38 id) ++ " " ++ ljust 8 (int_str n) ++ " "
               ++ ljust 15 (str (or_else (field trace "output_tokens") (PyStr "N/A")))
               ++ " " ++ ljust 15 source)%string])%list).
Proof using Type.
  intros Hid Hspans Hsource.
  unfold show_row, bind, lift, print, modify, ret, get.
  rewrite Hid, Hspans, Hsource. reflexivity.
Qed.

(** ASCII text stays ASCII under the operations of the table. *)
Lemma ascii_only_append (s1 s2 : string) :
  ascii_only (s1 ++ s2) = ascii_only s1 && ascii_only s2.
Proof using Type.
  induction s1 as [|[b0 b1 b2 b3 b4 b5 b6 b7] s1 IH]; [reflexivity|].
  simpl. rewrite IH. now rewrite andb_assoc.
Qed.

Lemma ascii_only_spaces n : ascii_only (repeat_char " " n) = true.
Proof using Type. induction n as [|n IH]; [reflexivity|]. simpl. exact IH. Qed.

Lemma ascii_only_ljust width s : ascii_only (ljust width s) = ascii_only s.
Proof using Type.
  unfold ljust. rewrite ascii_only_append, ascii_only_spaces. apply andb_true_r.
Qed.

Lemma ascii_only_substring s : forall start n,
  ascii_only s = true -> ascii_only (String.substring start n s) = true.
Proof using Type.
  induction s as [|[b0 b1 b2 b3 b4 b5 b6 b7] s IH]; intros start n H.
  - now destruct start, n.
  - simpl in H. apply andb_true_iff in H as [Hc Hs].
    destruct start as [|start]; simpl.
    + destruct n as [|n]; [reflexivity|]. simpl. rewrite Hc. now apply IH.
    + now apply IH.
Qed.

Lemma ascii_only_slice_to n s : ascii_only s = true -> ascii_only (slice_to n s) = true.
Proof using Type. apply ascii_only_substring. Qed.

Lemma ascii_only_uint (d : Decimal.uint) : ascii_only (NilEmpty.string_of_uint d) = true.
Proof using Type. induction d; simpl; trivial. Qed.

Lemma ascii_only_int_str (n : Z) : ascii_only (int_str n) = true.
Proof using Type.
  unfold int_str, NilZero.string_of_int.
  destruct (Z.to_int n) as [d|d].
  - unfold NilZero.string_of_uint. destruct d; try apply ascii_only_uint. reflexivity.
  - unfold NilZero.string_of_uint. simpl.
    destruct d; try apply ascii_only_uint; reflexivity.
Qed.

(** X13. The row of a summary whose identifier is a string, whose span
    count is an int and whose data source is a string or is falsy, all of
    them ASCII text, is printed without an exception, and is ASCII text.
    The identifier is cut to 38 characters and its column is exactly 40
    wide, so the span count always starts at the same place; a row is at
    least 81 characters long; and an output token count of 0, like a
    missing one, is shown as N/A. *)
Theorem show_row_columns (py : Python) (trace : dict) (id : string) (n : Z)
    (source : string) (out : list string) :
  dict_get "trace_id" trace = Some (PyStr id) ->
  dict_get "spans" trace = Some (PyInt n) ->
  or_else (field trace "data_source") (PyStr "N/A") = PyStr source ->
  ascii_only id = true ->
  ascii_only source = true ->
  ascii_only (str (or_else (field trace "output_tokens") (PyStr "N/A"))) = true ->
  exists tokens,
    show_row py trace out =
      (Return Next,
       (out ++ [(ljust 40 (slice_to 38 id) ++ " " ++ ljust 8 (int_str n) ++ " "
                   ++ ljust 15 tokens ++ " " ++ ljust 15 source)%string])%list)
    /\ ascii_only (ljust 40 (slice_to 38 id) ++ " " ++ ljust 8 (int_str n) ++ " "
                     ++ ljust 15 tokens ++ " " ++ ljust 15 source) = true
    /\ String.length (ljust 40 (slice_to 38 id)) = 40%nat
    /\ (81 <= String.length (ljust 40 (slice_to 38 id) ++ " " ++ ljust 8 (int_str n) ++ " "
                               ++ ljust 15 tokens ++ " " ++ ljust 15 source))%nat
    /\ (truthy (field trace "output_tokens") = false -> tokens = "N/A")
    /\ (truthy (field trace "output_tokens") = true ->
        tokens = str (field trace "output_tokens")).
Proof using Type.
  intros Hid Hspans Hsource Aid Asource Atokens.
  exists (str (or_else (field trace "output_tokens") (PyStr "N/A"))).
  split; [now apply show_row_text|]. split; [|split; [|split; [|split]]].
  - rewrite !ascii_only_append, !ascii_only_ljust, ascii_only_int_str,
      (ascii_only_slice_to _ _ Aid), Asource, Atokens. reflexivity.
  - rewrite length_ljust, slice_to_length. lia.
  - rewrite !length_append, !length_ljust. simpl String.length. lia.
  - unfold or_else. now intros ->.
  - unfold or_else. now intros ->.
Qed.

(** X14. A summary whose identifier is None (the record had no
    [trace_id]) cannot be cut to 38 characters: the table raises a
    [TypeError] at its row, after the rows before it are printed, and the
    rows behind it and the hint are not. *)
Theorem main_raises_without_trace_id (py : Python) (args : Args) (trace_dir : TraceDir)
    (children : list Path) (before after : list dict) (trace : dict)
    (printed : list string) :
  entries trace_dir = Some children ->
  count_arg args = false ->
  detail_arg args = None \/ detail_arg args = Some "" ->
  list_traces children (Some (parse_filters (filter_arg args))) (Some (limit_arg args))
    = Return (before ++ trace :: after)%list ->
  for_in before (show_row py)
    [("Found " ++ int_str (Z.of_nat (List.length (before ++ trace :: after)%list))
        ++ " traces:" ++ nl)%string;
     (ljust 40 "Trace ID" ++ " " ++ ljust 8 "Spans" ++ " "
        ++ ljust 15 "Output Tokens" ++ " " ++ ljust 15 "Data Source")%string;
     repeat_char "-" 100]
    = (Return tt, printed) ->
  dict_get "trace_id" trace = Some PyNone ->
  main py args trace_dir [] = (Raise TypeError, printed).
Proof using Type.
  intros Hdir Hcount Hdetail Hlist Hrows Hid.
  unfold main. rewrite Hdir, Hcount.
  assert (Hmode :
    match detail_arg args with
    | Some (String c rest) => false
    | _ => true
    end = true) by (destruct Hdetail as [->| ->]; reflexivity).
  destruct (detail_arg args) as [[|c rest]|]; try discriminate Hmode;
    unfold bind at 1, lift at 1; rewrite Hlist;
    unfold bind at 1 2 3 4, print, modify; cbn [app];
    rewrite rows_app, Hrows, for_in_cons;
    unfold show_row, bind at 1 2, lift at 1 2, get; rewrite Hid; reflexivity.
Qed.

(** X15. Count mode prints the number of trace folders that list mode
    visits, whatever the other arguments are; it reads no trace file, so
    it raises nothing where a listing would, and no listing of the
    directory returns more summaries than it counts. *)
Theorem main_count (py : Python) (args : Args) (trace_dir : TraceDir)
    (children : list Path) (out : list string) :
  entries trace_dir = Some children ->
  count_arg args = true ->
  main py args trace_dir out =
    (Return tt,
     (out ++ [("Total traces: "
                 ++ int_str (Z.of_nat (List.length (trace_folders children))))%string])%list)
  /\ forall filters limit traces,
       list_traces children filters limit = Return traces ->
       (List.length traces <= List.length (trace_folders children))%nat.
Proof using Type.
  intros Hdir Hcount. split.
  - unfold main. rewrite Hdir, Hcount. unfold print, modify, trace_folders.
    now rewrite (Permutation_length (sorted_perm _)).
  - intros filters limit traces H. unfold list_traces, exec in H.
    destruct (for_in (trace_folders children) (visit filters limit) [])
      as [[[]|e] res] eqn:E; [|discriminate].
    injection H as ->. now apply loop_length in E as [H _].
Qed.

(** X16. When list mode has printed its rows, its last line tells how to
    view the trace of the first row: the [--detail] argument it names is
    the name of a trace folder of the directory, the one the first summary
    came from ([Path(str(p)).name] being [p.name] for these folders). *)
Theorem main_hint (py : Python) (args : Args) (trace_dir : TraceDir)
    (children : list Path) (first : dict) (rest : list dict)
    (printed : list string) :
  entries trace_dir = Some children ->
  count_arg args = false ->
  detail_arg args = None \/ detail_arg args = Some "" ->
  list_traces children (Some (parse_filters (filter_arg args))) (Some (limit_arg args))
    = Return (first :: rest) ->
  for_in (first :: rest) (show_row py)
    [("Found " ++ int_str (Z.of_nat (List.length (first :: rest))) ++ " traces:" ++ nl)%string;
     (ljust 40 "Trace ID" ++ " " ++ ljust 8 "Spans" ++ " "
        ++ ljust 15 "Output Tokens" ++ " " ++ ljust 15 "Data Source")%string;
     repeat_char "-" 100]
    = (Return tt, printed) ->
  (forall p, In p (trace_folders children) -> path_name py (fspath p) = name p) ->
  exists p,
    In p (trace_folders children)
    /\ field first "path" = PyStr (fspath p)
    /\ main py args trace_dir [] =
       (Return tt,
        (printed ++ [(nl ++ "To view details: python view_traces.py --detail "
                         ++ name p)%string])%list).
Proof using Type.
  intros Hdir Hcount Hdetail Hlist Hrows Hname.
  assert (Hfirst : exists p info,
            In p (trace_folders children)
            /\ first = dict_set "path" (PyStr (fspath p)) info).
  { unfold list_traces, exec in Hlist.
    destruct (for_in (trace_folders children) _ []) as [[[]|e] res] eqn:E; [|discriminate].
    injection Hlist as ->.
    apply loop_provenance in E as (added & Hres & Hall). simpl in Hres. subst added.
    inversion Hall as [|? ? (p & td & info & Hp & _ & _ & _ & _ & ->) _]; subst.
    now exists p, info. }
  destruct Hfirst as (p & info & Hp & Hfirst).
  exists p. split; [exact Hp|]. split; [subst first; apply field_set_same|].
  unfold main. rewrite Hdir, Hcount.
  assert (Hmode :
    match detail_arg args with
    | Some (String c rest) => false
    | _ => true
    end = true) by (destruct Hdetail as [->| ->]; reflexivity).
  destruct (detail_arg args) as [[|c' rest']|]; try discriminate Hmode;
    unfold bind at 1, lift at 1; rewrite Hlist;
    unfold bind at 1 2 3 4, print, modify; cbn [app];
    rewrite Hrows; unfold bind, lift, subscript;
    rewrite Hfirst, dict_get_set_same, (Hname p Hp); reflexivity.
Qed.

(** X17. The summarizer reads the identifier, the status, the number of
    spans and the first span, and nothing else of a record: two records
    that agree on these have the same summary, or raise the same
    exception, whatever their other spans and their other keys are. *)
Theorem extract_trace_info_first_span_only (d d' : dict) (first : value)
    (rest rest' : list value) :
  dict_get "trace_id" d = dict_get "trace_id" d' ->
  dict_get "status" d = dict_get "status" d' ->
  dict_get "spans" d = Some (PyList (first :: rest)) ->
  dict_get "spans" d' = Some (PyList (first :: rest')) ->
  List.length rest = List.length rest' ->
  extract_trace_info (PyDict d) = extract_trace_info (PyDict d').
Proof using Type.
  intros Hid Hst Hsp Hsp' Hlen.
  assert (Ht : truthy (PyDict d) = true) by (destruct d; [discriminate Hsp|reflexivity]).
  assert (Ht' : truthy (PyDict d') = true) by (destruct d'; [discriminate Hsp'|reflexivity]).
  unfold extract_trace_info. rewrite Ht, Ht'. cbn [negb].
  rewrite !exec_bind_lift. cbn [get]. rewrite Hid, Hst, Hsp, Hsp'.
  rewrite ?exec_bind_lift.
  destruct (get _ "code" PyNone) as [code|]; [|reflexivity].
  rewrite ?exec_bind_lift. cbn [len List.length]. rewrite Hlen.
  rewrite ?exec_bind_lift, ?exec_bind_put, ?exec_bind_lift. cbn [truthy].
  rewrite ?exec_bind_lift. reflexivity.
Qed.

End ViewTraces.

(** ** The script on concrete traces *)

(** The filter [spans=2] keeps a trace of two spans: the int 2 is compared
    as the string 2. *)
Lemma filter_compares_str_witness :
  visit Fixture.json_loads Fixture.float_repr Fixture.str_repr
    (Some [("spans", "2")]) None
    (Fixture.folder "two" (Some Fixture.two_spans_text)) []
  = (Return Next,
     [[("trace_id", PyStr "two"); ("status", PyNone); ("spans", PyInt 2);
       ("path", PyStr "traces/tr-two")]]).
Proof.
  refine (proj1 (filter_compares_str Fixture.json_loads Fixture.float_repr
                   Fixture.str_repr [("spans", "2")] None
                   (Fixture.folder "two" (Some Fixture.two_spans_text))
                   Fixture.two_spans_value
                   [("trace_id", PyStr "two"); ("status", PyNone); ("spans", PyInt 2)]
                   [] _ _ _ _)).
  - discriminate.
  - reflexivity.
  - reflexivity.
  - reflexivity.
Defined.

(** The filter [index=None] keeps a trace whose summary has no [index]
    field at all. *)
Lemma absent_field_matches_None :
  list_traces Fixture.json_loads Fixture.float_repr Fixture.str_repr
    [Fixture.folder "a" (Some (Fixture.record_text "a"))]
    (Some [("index", "None")]) None
  = Return [Fixture.summary "a"]
  /\ dict_get "index" (Fixture.summary "a") = None.
Proof. split; reflexivity. Qed.

(** Five traces match, and the folder after the second of them holds a
    trace file that is not JSON: a limit of 2 returns the first two in the
    order of the names and never reads that file. *)
Lemma list_traces_limit_witness :
  list_traces Fixture.json_loads Fixture.float_repr Fixture.str_repr
    [Fixture.folder "d" (Some (Fixture.record_text "d"));
     Fixture.folder "b" (Some (Fixture.record_text "b"));
     Fixture.folder "bad" (Some "{");
     Fixture.folder "e" (Some (Fixture.record_text "e"));
     Fixture.folder "a" (Some (Fixture.record_text "a"));
     Fixture.folder "c" (Some (Fixture.record_text "c"))]
    (Some [("status", "OK")]) (Some 2)
  = Return [Fixture.summary "a"; Fixture.summary "b"].
Proof.
  refine (proj1 (list_traces_limit Fixture.json_loads Fixture.float_repr
                   Fixture.str_repr _ (Some [("status", "OK")]) 2
                   [Fixture.folder "a" (Some (Fixture.record_text "a"));
                    Fixture.folder "b" (Some (Fixture.record_text "b"))]
                   [Fixture.folder "bad" (Some "{");
                    Fixture.folder "c" (Some (Fixture.record_text "c"));
                    Fixture.folder "d" (Some (Fixture.record_text "d"));
                    Fixture.folder "e" (Some (Fixture.record_text "e"))]
                   _ _ _ _)).
  - reflexivity.
  - reflexivity.
  - repeat constructor; do 2 eexists; split; reflexivity.
  - right. vm_compute. discriminate.
Defined.

(** With a limit of 0 the two matching traces are both returned. *)
Lemma list_traces_limit_zero_witness :
  list_traces Fixture.json_loads Fixture.float_repr Fixture.str_repr
    [Fixture.folder "b" (Some (Fixture.record_text "b"));
     Fixture.folder "a" (Some (Fixture.record_text "a"))]
    None (Some 0)
  = Return [Fixture.summary "a"; Fixture.summary "b"].
Proof.
  refine (proj2 (list_traces_limit_zero Fixture.json_loads Fixture.float_repr
                   Fixture.str_repr
                   [Fixture.folder "b" (Some (Fixture.record_text "b"));
                    Fixture.folder "a" (Some (Fixture.record_text "a"))]
                   None) _).
  repeat constructor; do 2 eexists; split; reflexivity.
Defined.

(** A directory with a file, a folder of another name and three trace
    folders, one of them empty: the listing is the one of the three trace
    folders alone, each of them is loaded, and the two summaries come in
    the order of the names. *)
Lemma list_traces_folders_witness :
  list_traces Fixture.json_loads Fixture.float_repr Fixture.str_repr
    [Fixture.folder "c" (Some (Fixture.record_text "c"));
     Fixture.folder "b" None;
     Fixture.folder "a" (Some (Fixture.record_text "a"))]
    None None
  = list_traces Fixture.json_loads Fixture.float_repr Fixture.str_repr
      [Fixture.folder "c" (Some (Fixture.record_text "c"));
       mkPath "tr-x" "traces/tr-x" false None;
       mkPath "other" "traces/other" true (Some (Fixture.record_text "d"));
       Fixture.folder "b" None;
       Fixture.folder "a" (Some (Fixture.record_text "a"))]
      None None
  /\ In (Fixture.summary "c") [Fixture.summary "a"; Fixture.summary "c"]
  /\ exists kept,
       map (fun info => field info "path") [Fixture.summary "a"; Fixture.summary "c"]
       = map (fun p => PyStr (fspath p)) kept
       /\ StronglySorted name_le kept
       /\ incl kept
            (trace_folders
               [Fixture.folder "c" (Some (Fixture.record_text "c"));
                mkPath "tr-x" "traces/tr-x" false None;
                mkPath "other" "traces/other" true (Some (Fixture.record_text "d"));
                Fixture.folder "b" None;
                Fixture.folder "a" (Some (Fixture.record_text "a"))]).
Proof.
  pose proof (list_traces_folders Fixture.json_loads Fixture.float_repr Fixture.str_repr
                [Fixture.folder "c" (Some (Fixture.record_text "c"));
                 mkPath "tr-x" "traces/tr-x" false None;
                 mkPath "other" "traces/other" true (Some (Fixture.record_text "d"));
                 Fixture.folder "b" None;
                 Fixture.folder "a" (Some (Fixture.record_text "a"))]
                None None)
    as (_ & _ & _ & Hsorted & Hothers & Hall & _).
  split; [|split].
  - apply Hothers. reflexivity.
  - destruct (Hall [Fixture.summary "a"; Fixture.summary "c"] eq_refl) as (_ & _ & Hin).
    refine (Hin (Fixture.folder "c" (Some (Fixture.record_text "c")))
                (Fixture.record_value "c")
                [("trace_id", PyStr "c"); ("status", PyStr "OK"); ("spans", PyInt 0)]
                _ _ _ _ _).
    + right. right. now left.
    + reflexivity.
    + reflexivity.
    + discriminate.
    + reflexivity.
  - exact (Hsorted [Fixture.summary "a"; Fixture.summary "c"] eq_refl).
Defined.

(** A folder without the trace file, and one whose trace file is cut short. *)
Lemma load_trace_missing_or_malformed_witness :
  load_trace Fixture.json_loads (Fixture.folder "a" None) = Return (PyDict [])
  /\ load_trace Fixture.json_loads (Fixture.folder "b" (Some "{")) = Raise JSONDecodeError.
Proof.
  split.
  - refine (proj1 (proj1 (load_trace_missing_or_malformed Fixture.json_loads
                            Fixture.float_repr Fixture.str_repr
                            (Fixture.folder "a" None)) _)).
    reflexivity.
  - refine (proj2 (load_trace_missing_or_malformed Fixture.json_loads
                     Fixture.float_repr Fixture.str_repr
                     (Fixture.folder "b" (Some "{"))) "{" JSONDecodeError _ _);
      reflexivity.
Defined.

(** A record with an empty list of spans. *)
Lemma extract_trace_info_no_spans_witness :
  extract_trace_info Fixture.json_loads (Fixture.record_value "a")
  = Return [("trace_id", PyStr "a"); ("status", PyStr "OK"); ("spans", PyInt 0)].
Proof.
  refine (proj1 (extract_trace_info_no_spans Fixture.json_loads
                   [("trace_id", PyStr "a"); ("status", PyDict [("code", PyStr "OK")]);
                    ("spans", PyList [])]
                   [("code", PyStr "OK")] _ _ _)).
  - discriminate.
  - reflexivity.
  - reflexivity.
Defined.

(** Outputs [{"token_ids": [1, 2, 3]}] give the count 3; outputs
    [{"token_ids": "abc"}] give None. *)
Lemma extract_trace_info_output_tokens_witness :
  (exists info,
     extract_trace_info Fixture.json_loads
       (PyDict (Fixture.one_span [("mlflow.spanOutputs", PyStr Fixture.outputs_text)]))
     = Return info
     /\ dict_get "output_tokens" info = Some (PyInt 3))
  /\ (exists info,
        extract_trace_info Fixture.json_loads
          (PyDict (Fixture.one_span [("mlflow.spanOutputs", PyStr Fixture.outputs_str_text)]))
        = Return info
        /\ dict_get "output_tokens" info = Some PyNone).
Proof.
  split.
  - destruct (extract_trace_info_output_tokens Fixture.json_loads
                (Fixture.one_span [("mlflow.spanOutputs", PyStr Fixture.outputs_text)])
                [("code", PyStr "OK")]
                [("name", PyStr "run");
                 ("attributes", PyDict [("mlflow.spanOutputs", PyStr Fixture.outputs_text)])]
                [] [("mlflow.spanOutputs", PyStr Fixture.outputs_text)]
                Fixture.outputs_text
                [("token_ids", PyList [PyInt 1; PyInt 2; PyInt 3])]
                (PyList [PyInt 1; PyInt 2; PyInt 3])
                eq_refl eq_refl eq_refl eq_refl eq_refl eq_refl eq_refl)
      as (info & Hret & Hlist & _).
    exists info. split; [exact Hret|]. exact (Hlist _ eq_refl).
  - destruct (extract_trace_info_output_tokens Fixture.json_loads
                (Fixture.one_span [("mlflow.spanOutputs", PyStr Fixture.outputs_str_text)])
                [("code", PyStr "OK")]
                [("name", PyStr "run");
                 ("attributes",
                  PyDict [("mlflow.spanOutputs", PyStr Fixture.outputs_str_text)])]
                [] [("mlflow.spanOutputs", PyStr Fixture.outputs_str_text)]
                Fixture.outputs_str_text
                [("token_ids", PyStr "abc")]
                (PyStr "abc")
                eq_refl eq_refl eq_refl eq_refl eq_refl eq_refl eq_refl)
      as (info & Hret & _ & Hother).
    exists info. split; [exact Hret|]. exact (Hother eq_refl).
Defined.

(** Outputs [{"token_ids": "abc"}]: the summary has the key
    [output_tokens], holding None. *)
Lemma output_tokens_key_is_set :
  extract_trace_info Fixture.json_loads
    (PyDict (Fixture.one_span [("mlflow.spanOutputs", PyStr Fixture.outputs_str_text)]))
  = Return [("trace_id", PyStr "t"); ("status", PyStr "OK"); ("spans", PyInt 1);
            ("output_tokens", PyNone)]
  /\ dict_get "output_tokens"
       [("trace_id", PyStr "t"); ("status", PyStr "OK"); ("spans", PyInt 1);
        ("output_tokens", PyNone)]
     = Some PyNone.
Proof. split; reflexivity. Qed.

(** Inputs [{"kwargs": {"index": 5, "data_source": "a",
    "extra_info": {"index": 9}}}]. *)
Lemma extract_trace_info_inputs_witness :
  exists info,
    extract_trace_info Fixture.json_loads
      (PyDict (Fixture.one_span [("mlflow.spanInputs", PyStr Fixture.inputs_text)]))
    = Return info
    /\ field info "index" = PyInt 5
    /\ field info "data_source" = PyStr "a"
    /\ field info "sample_index" = PyInt 9.
Proof.
  destruct (extract_trace_info_inputs Fixture.json_loads
              (Fixture.one_span [("mlflow.spanInputs", PyStr Fixture.inputs_text)])
              [("code", PyStr "OK")]
              [("name", PyStr "run");
               ("attributes", PyDict [("mlflow.spanInputs", PyStr Fixture.inputs_text)])]
              [] [("mlflow.spanInputs", PyStr Fixture.inputs_text)]
              Fixture.inputs_text
              [("kwargs",
                PyDict [("index", PyInt 5); ("data_source", PyStr "a");
                        ("extra_info", PyDict [("index", PyInt 9)])])]
              [("index", PyInt 5); ("data_source", PyStr "a");
               ("extra_info", PyDict [("index", PyInt 9)])]
              eq_refl eq_refl eq_refl eq_refl eq_refl eq_refl eq_refl)
    as (info & Hret & Hindex & Hsource & Hsample & _).
  exists info. repeat split; try assumption.
  exact (Hsample [("index", PyInt 9)] eq_refl).
Defined.

(** Inputs that are not JSON and outputs that are a JSON list: the summary
    has the three direct fields and no other. *)
Lemma extract_trace_info_swallows_witness :
  exists info,
    extract_trace_info Fixture.json_loads
      (PyDict (Fixture.one_span [("mlflow.spanInputs", PyStr "{");
                                 ("mlflow.spanOutputs", PyStr Fixture.long_text)]))
    = Return info
    /\ dict_get "index" info = None
    /\ dict_get "output_tokens" info = None.
Proof.
  destruct (extract_trace_info_swallows Fixture.json_loads
              (Fixture.one_span [("mlflow.spanInputs", PyStr "{");
                                 ("mlflow.spanOutputs", PyStr Fixture.long_text)])
              [("code", PyStr "OK")]
              [("name", PyStr "run");
               ("attributes", PyDict [("mlflow.spanInputs", PyStr "{");
                                      ("mlflow.spanOutputs", PyStr Fixture.long_text)])]
              [] [("mlflow.spanInputs", PyStr "{");
                  ("mlflow.spanOutputs", PyStr Fixture.long_text)]
              eq_refl eq_refl eq_refl eq_refl eq_refl)
    as (info & Hret & Hin & Hout).
  exists info. split; [exact Hret|]. split.
  - apply Hin. intros text data kw [= <-]. discriminate.
  - apply Hout. intros text data [= <-]. vm_compute. discriminate.
Defined.

(** A payload of 10000 letters is printed as its first 500 characters and
    the marker. *)
Lemma show_span_truncates_witness :
  exists shown out',
    show_span Fixture.json_loads Fixture.json_dumps Fixture.float_repr Fixture.str_repr
      (1, PyDict [("name", PyStr "run");
                  ("attributes", PyDict [("mlflow.spanInputs", PyStr Fixture.long_text)])])
      []
    = (Return Next, out')
    /\ In ("      Inputs: " ++ shown ++ "...") out'
    /\ String.length shown = 500%nat
    /\ String.prefix shown (Fixture.json_dumps Fixture.long_value 8) = true.
Proof.
  destruct (show_span_truncates Fixture.json_loads Fixture.json_dumps
              Fixture.float_repr Fixture.str_repr 1
              [("name", PyStr "run");
               ("attributes", PyDict [("mlflow.spanInputs", PyStr Fixture.long_text)])]
              [("mlflow.spanInputs", PyStr Fixture.long_text)] []
              "mlflow.spanInputs" "Inputs" Fixture.long_text Fixture.long_value
              (or_introl eq_refl) eq_refl eq_refl)
    as (shown & out' & Hret & Hin & _ & Hlen & Hpre).
  - vm_compute. reflexivity.
  - apply Nat.ltb_lt. vm_compute. reflexivity.
  - exists shown, out'. auto.
Defined.

(** ** More runs on concrete traces *)

(** A record without an identifier and with two spans, the first with
    outputs: its summary is not empty, the record being truthy. *)
Lemma extract_trace_info_direct_fields_witness :
  [("trace_id", PyNone); ("status", PyNone); ("spans", PyInt 2);
   ("output_tokens", PyInt 3)] = []
  <-> truthy (PyDict [("spans",
                       PyList [PyDict [("attributes",
                                        PyDict [("mlflow.spanOutputs",
                                                 PyStr Fixture.outputs_text)])];
                               PyDict []])]) = false.
Proof.
  refine (proj1 (extract_trace_info_direct_fields Fixture.json_loads
                   (PyDict [("spans",
                             PyList [PyDict [("attributes",
                                              PyDict [("mlflow.spanOutputs",
                                                       PyStr Fixture.outputs_text)])];
                                     PyDict []])])
                   [("trace_id", PyNone); ("status", PyNone); ("spans", PyInt 2);
                    ("output_tokens", PyInt 3)] _)).
  reflexivity.
Defined.

(** The second of three trace folders holds a file that is not JSON: the
    listing raises the decoder's error. *)
Lemma list_traces_aborts_witness :
  list_traces Fixture.json_loads Fixture.float_repr Fixture.str_repr
    [Fixture.folder "c" (Some (Fixture.record_text "c"));
     Fixture.folder "b" (Some "{");
     Fixture.folder "a" (Some (Fixture.record_text "a"))]
    None (Some 20)
  = Raise JSONDecodeError.
Proof.
  refine (list_traces_aborts Fixture.json_loads Fixture.float_repr Fixture.str_repr
            _ None (Some 20)
            [Fixture.folder "a" (Some (Fixture.record_text "a"))]
            [Fixture.folder "c" (Some (Fixture.record_text "c"))]
            (Fixture.folder "b" (Some "{")) JSONDecodeError _ _ _ _).
  - reflexivity.
  - repeat constructor. do 2 eexists. split; reflexivity.
  - reflexivity.
  - left. reflexivity.
Defined.

(** Three matching traces and a limit of 2. *)
Lemma list_traces_length_witness :
  (List.length [Fixture.summary "a"; Fixture.summary "b"] <= 3)%nat
  /\ Z.of_nat (List.length [Fixture.summary "a"; Fixture.summary "b"]) <= 2.
Proof.
  destruct (list_traces_length Fixture.json_loads Fixture.float_repr Fixture.str_repr
              [Fixture.folder "c" (Some (Fixture.record_text "c"));
               Fixture.folder "b" (Some (Fixture.record_text "b"));
               Fixture.folder "a" (Some (Fixture.record_text "a"))]
              None (Some 2) [Fixture.summary "a"; Fixture.summary "b"] eq_refl)
    as [Hfolders Hlimit].
  split; [exact Hfolders|]. exact (Hlimit 2 eq_refl eq_refl).
Defined.

(** A limit of -1 on a directory whose only trace file is not JSON. *)
Lemma list_traces_negative_limit_witness :
  list_traces Fixture.json_loads Fixture.float_repr Fixture.str_repr
    [Fixture.folder "a" (Some "{")] None (Some (-1))
  = Return [].
Proof.
  refine (list_traces_negative_limit Fixture.json_loads Fixture.float_repr
            Fixture.str_repr _ None (-1) _).
  reflexivity.
Defined.

(** The listing of two traces under the filter [status=OK]. *)
Lemma list_traces_sound_witness :
  Forall (fun summary =>
            exists p trace_data info,
              In p (trace_folders
                      [Fixture.folder "b" (Some (Fixture.record_text "b"));
                       Fixture.folder "a" (Some (Fixture.record_text "a"))])
              /\ load_trace Fixture.json_loads p = Return trace_data
              /\ extract_trace_info Fixture.json_loads trace_data = Return info
              /\ info <> []
              /\ field summary "path" = PyStr (fspath p)
              /\ (forall k, k <> "path" -> field summary k = field info k)
              /\ (forall fs k v, Some [("status", "OK")] = Some fs -> In (k, v) fs ->
                    k <> "path" ->
                    str Fixture.float_repr Fixture.str_repr (field summary k) = v))
         [Fixture.summary "a"; Fixture.summary "b"].
Proof.
  refine (list_traces_sound Fixture.json_loads Fixture.float_repr Fixture.str_repr
            _ (Some [("status", "OK")]) None
            [Fixture.summary "a"; Fixture.summary "b"] _).
  reflexivity.
Defined.

(** The filter [path=traces/tr-a] on the directory that holds that trace. *)
Lemma list_traces_path_filter_witness :
  list_traces Fixture.json_loads Fixture.float_repr Fixture.str_repr
    [Fixture.folder "a" (Some (Fixture.record_text "a"))]
    (Some [("path", "traces/tr-a")]) None
  = Return []
  /\ @nil dict = [].
Proof.
  split; [reflexivity|].
  refine (list_traces_path_filter Fixture.json_loads Fixture.float_repr Fixture.str_repr
            [Fixture.folder "a" (Some (Fixture.record_text "a"))]
            [("path", "traces/tr-a")] None "traces/tr-a" [] _ _ _).
  - now left.
  - discriminate.
  - reflexivity.
Defined.

(** A directory of three entries, yielded in two orders. *)
Lemma list_traces_order_independent_witness :
  list_traces Fixture.json_loads Fixture.float_repr Fixture.str_repr
    [Fixture.folder "c" (Some (Fixture.record_text "c"));
     Fixture.folder "a" (Some (Fixture.record_text "a"));
     Fixture.folder "b" None]
    None None
  = list_traces Fixture.json_loads Fixture.float_repr Fixture.str_repr
      [Fixture.folder "b" None;
       Fixture.folder "c" (Some (Fixture.record_text "c"));
       Fixture.folder "a" (Some (Fixture.record_text "a"))]
      None None.
Proof.
  refine (proj2 (list_traces_order_independent Fixture.json_loads Fixture.float_repr
                   Fixture.str_repr _ _ None None _ _)).
  - apply Permutation_sym.
    exact (Permutation_cons_append
             [Fixture.folder "c" (Some (Fixture.record_text "c"));
              Fixture.folder "a" (Some (Fixture.record_text "a"))]
             (Fixture.folder "b" None)).
  - repeat constructor; simpl; intuition discriminate.
Defined.

(** Outputs [{"token_ids": [1, 2, 3]}] render in fewer than 500
    characters: they are printed in full, and the marker behind them. *)
Lemma show_span_short_payload_witness :
  exists out',
    show_span Fixture.json_loads Fixture.json_dumps Fixture.float_repr Fixture.str_repr
      (1, PyDict [("name", PyStr "run");
                  ("attributes", PyDict [("mlflow.spanOutputs", PyStr Fixture.outputs_text)])])
      []
    = (Return Next, out')
    /\ In ("      Outputs: " ++ Fixture.json_dumps Fixture.outputs_value 8 ++ "...") out'.
Proof.
  refine (show_span_short_payload Fixture.json_loads Fixture.json_dumps
            Fixture.float_repr Fixture.str_repr 1
            [("name", PyStr "run");
             ("attributes", PyDict [("mlflow.spanOutputs", PyStr Fixture.outputs_text)])]
            [("mlflow.spanOutputs", PyStr Fixture.outputs_text)] []
            "mlflow.spanOutputs" "Outputs" Fixture.outputs_text Fixture.outputs_value
            (or_intror eq_refl) eq_refl eq_refl eq_refl _).
  apply Nat.leb_le. vm_compute. reflexivity.
Defined.

(** The detail view of a record with two spans without attributes. *)
Lemma view_trace_detail_lines_witness :
  exists lines,
    view_trace_detail Fixture.json_loads Fixture.json_dumps Fixture.float_repr
      Fixture.str_repr (Fixture.folder "two" (Some Fixture.two_spans_text)) []
    = (Return tt,
       ["Trace ID: two"; "Status: None"; (nl ++ "Spans (2):")%string] ++ lines)%list
    /\ (2 <= List.length lines <= 6)%nat.
Proof.
  refine (view_trace_detail_lines Fixture.json_loads Fixture.json_dumps
            Fixture.float_repr Fixture.str_repr
            (Fixture.folder "two" (Some Fixture.two_spans_text)) Fixture.two_spans_text
            [("trace_id", PyStr "two"); ("spans", PyList [PyDict []; PyDict []])]
            [] [PyDict []; PyDict []] _ _ _ _ _ _).
  - reflexivity.
  - reflexivity.
  - discriminate.
  - reflexivity.
  - reflexivity.
  - repeat constructor; exists [], []; split; reflexivity.
Defined.

(** The arguments [a=1], [junk], [b=x=y] and [a=2]. *)
Lemma parse_filters_spec_witness :
  filters_get "a" (parse_filters (Some ["a=1"; "junk"; "b=x=y"; "a=2"])) = Some "2"
  /\ parse_filters (Some ["a=1"; "junk"; "b=x=y"; "a=2"])
     = parse_filters (Some ["a=1"; "b=x=y"; "a=2"]).
Proof.
  split.
  - refine (proj1 (proj1 (proj2 (proj2 parse_filters_spec))
                     ["a=1"; "junk"; "b=x=y"] "a=2" "a" "2" _)).
    reflexivity.
  - refine (proj2 (proj2 (proj2 (proj2 parse_filters_spec)))
              ["a=1"] "junk" ["b=x=y"; "a=2"] _).
    reflexivity.
Defined.

(** The row of a trace without outputs and without a data source. *)
Lemma show_row_columns_witness :
  exists tokens,
    show_row Fixture.float_repr Fixture.str_repr (mkPython Fixture.path_name KeyError)
      (Fixture.summary "a") []
    = (Return Next,
       [ljust 40 (slice_to 38 "a") ++ " " ++ ljust 8 (int_str 0) ++ " "
          ++ ljust 15 tokens ++ " " ++ ljust 15 "N/A"])
    /\ tokens = "N/A".
Proof.
  destruct (show_row_columns Fixture.float_repr Fixture.str_repr
              (mkPython Fixture.path_name KeyError) (Fixture.summary "a") "a" 0 "N/A" []
              eq_refl eq_refl eq_refl eq_refl eq_refl eq_refl)
    as (tokens & Hrow & _ & _ & _ & Hfalsy & _).
  exists tokens. split; [exact Hrow|]. exact (Hfalsy eq_refl).
Defined.

(** List mode on a directory whose second trace has no identifier: the
    first row is printed, then the table raises. *)
Lemma main_raises_without_trace_id_witness :
  main Fixture.json_loads_more Fixture.json_dumps Fixture.float_repr Fixture.str_repr
    (mkPython Fixture.path_name KeyError)
    (mkArgs None 20 None false)
    (mkTraceDir "traces"
       (Some [Fixture.folder "b" (Some Fixture.no_id_text);
              Fixture.folder "a" (Some (Fixture.record_text "a"))])
       (fun d => "traces/" ++ d) (fun _ => None))
    []
  = (Raise TypeError,
     ["Found 2 traces:" ++ nl;
      ljust 40 "Trace ID" ++ " " ++ ljust 8 "Spans" ++ " "
        ++ ljust 15 "Output Tokens" ++ " " ++ ljust 15 "Data Source";
      repeat_char "-" 100;
      ljust 40 "a" ++ " " ++ ljust 8 "0" ++ " " ++ ljust 15 "N/A" ++ " " ++ ljust 15 "N/A"]).
Proof.
  refine (main_raises_without_trace_id Fixture.json_loads_more Fixture.json_dumps
            Fixture.float_repr Fixture.str_repr (mkPython Fixture.path_name KeyError)
            (mkArgs None 20 None false)
            (mkTraceDir "traces"
               (Some [Fixture.folder "b" (Some Fixture.no_id_text);
                      Fixture.folder "a" (Some (Fixture.record_text "a"))])
               (fun d => "traces/" ++ d) (fun _ => None))
            _ [Fixture.summary "a"] []
            [("trace_id", PyNone); ("status", PyNone); ("spans", PyInt 0);
             ("path", PyStr "traces/tr-b")]
            _ _ _ _ _ _ _).
  - reflexivity.
  - reflexivity.
  - now left.
  - reflexivity.
  - reflexivity.
  - reflexivity.
Defined.

(** Count mode on a directory of two trace folders, one with a file that
    is not JSON, a folder of another name and a file. *)
Lemma main_count_witness :
  main Fixture.json_loads Fixture.json_dumps Fixture.float_repr Fixture.str_repr
    (mkPython Fixture.path_name KeyError)
    (mkArgs (Some ["status=OK"]) 20 (Some "tr-a") true)
    (mkTraceDir "traces"
       (Some [Fixture.folder "b" (Some "{");
              mkPath "other" "traces/other" true None;
              mkPath "tr-file" "traces/tr-file" false None;
              Fixture.folder "a" (Some (Fixture.record_text "a"))])
       (fun d => "traces/" ++ d) (fun _ => None))
    []
  = (Return tt, ["Total traces: 2"]).
Proof.
  refine (proj1 (main_count Fixture.json_loads Fixture.json_dumps
                   Fixture.float_repr Fixture.str_repr (mkPython Fixture.path_name KeyError)
                   (mkArgs (Some ["status=OK"]) 20 (Some "tr-a") true)
                   (mkTraceDir "traces"
                      (Some [Fixture.folder "b" (Some "{");
                             mkPath "other" "traces/other" true None;
                             mkPath "tr-file" "traces/tr-file" false None;
                             Fixture.folder "a" (Some (Fixture.record_text "a"))])
                      (fun d => "traces/" ++ d) (fun _ => None))
                   [Fixture.folder "b" (Some "{");
                    mkPath "other" "traces/other" true None;
                    mkPath "tr-file" "traces/tr-file" false None;
                    Fixture.folder "a" (Some (Fixture.record_text "a"))]
                   [] _ _)); reflexivity.
Defined.

(** List mode on a directory of two traces: the hint names the folder of
    the first row. *)
Lemma main_hint_witness :
  exists p,
    In p (trace_folders [Fixture.folder "b" (Some (Fixture.record_text "b"));
                         Fixture.folder "a" (Some (Fixture.record_text "a"))])
    /\ field (Fixture.summary "a") "path" = PyStr (fspath p)
    /\ main Fixture.json_loads Fixture.json_dumps Fixture.float_repr Fixture.str_repr
         (mkPython Fixture.path_name KeyError)
         (mkArgs None 20 None false)
         (mkTraceDir "traces"
            (Some [Fixture.folder "b" (Some (Fixture.record_text "b"));
                   Fixture.folder "a" (Some (Fixture.record_text "a"))])
            (fun d => "traces/" ++ d) (fun _ => None))
         []
       = (Return tt,
          ["Found 2 traces:" ++ nl;
           ljust 40 "Trace ID" ++ " " ++ ljust 8 "Spans" ++ " "
             ++ ljust 15 "Output Tokens" ++ " " ++ ljust 15 "Data Source";
           repeat_char "-" 100;
           ljust 40 "a" ++ " " ++ ljust 8 "0" ++ " " ++ ljust 15 "N/A" ++ " "
             ++ ljust 15 "N/A";
           ljust 40 "b" ++ " " ++ ljust 8 "0" ++ " " ++ ljust 15 "N/A" ++ " "
             ++ ljust 15 "N/A"]%string
          ++ [(nl ++ "To view details: python view_traces.py --detail " ++ name p)%string])%list.
Proof.
  refine (main_hint Fixture.json_loads Fixture.json_dumps
            Fixture.float_repr Fixture.str_repr (mkPython Fixture.path_name KeyError)
            (mkArgs None 20 None false)
            (mkTraceDir "traces"
               (Some [Fixture.folder "b" (Some (Fixture.record_text "b"));
                      Fixture.folder "a" (Some (Fixture.record_text "a"))])
               (fun d => "traces/" ++ d) (fun _ => None))
            _ (Fixture.summary "a") [Fixture.summary "b"] _ _ _ _ _ _ _).
  - reflexivity.
  - reflexivity.
  - now left.
  - reflexivity.
  - reflexivity.
  - intros p [<-|[<-|[]]]; reflexivity.
Defined.

(** Two records that differ in their second span and in a key of their
    own. *)
Lemma extract_trace_info_first_span_only_witness :
  extract_trace_info Fixture.json_loads
    (PyDict [("trace_id", PyStr "t");
             ("spans", PyList [PyDict []; PyDict [("name", PyStr "x")]])])
  = extract_trace_info Fixture.json_loads
      (PyDict [("trace_id", PyStr "t"); ("note", PyInt 1);
               ("spans", PyList [PyDict []; PyInt 7])]).
Proof.
  refine (extract_trace_info_first_span_only Fixture.json_loads _ _ (PyDict [])
            [PyDict [("name", PyStr "x")]] [PyInt 7] _ _ _ _ _); reflexivity.
Defined.
